(** * Runner-lifecycle operations of [src/gh.js]

    A shallow embedding of the GitHub self-hosted-runner helper
    ([getRunner], [getRegistrationToken], [removeRunner],
    [waitForRunnerRegistered]) together with the properties of its
    pagination, lookup, removal and polling logic.

    The JavaScript module performs I/O through three collaborators: the
    logger [core], the REST client [octokit] and the process-wide [config]
    object.  Their observable effects are recorded in a chronological
    [trace]; the one piece of shared mutable data, [config.githubContext],
    is part of the threaded [World].

    Modelling choices: runner objects have the fields the module reads
    ([id], [name], [status], [labels] with [name]); the [while] loop of
    [getRunner] and the repeating timer of the waiter take a bound on their
    number of rounds and report [OutOfFuel] when it is used up; whole
    waits are described in the serialised schedule, in which the runs of
    the timer callback follow one another, each locator call finishing
    before the next period elapses. Statements about a single run of the
    callback do not depend on that schedule; statements about the number
    of locator calls or of error lines of a whole wait do, and say so. *)

From Stdlib Require Import ZArith Lia.
From stdpp Require Import base strings list gmap pretty.

Local Open Scope string_scope.
Local Open Scope Z_scope.

(** ** Data model *)

Module Label.
(** An entry of a runner's [labels] array. *)
Record t := mk { name : string }.
End Label.

Module Runner.
(** A runner object as returned by the listing endpoint. *)
Record t := mk {
  id : Z;
  name : string;
  status : string;
  labels : list Label.t
}.
End Runner.

(** Primitive values stored in a request-parameter object. *)
Inductive Value :=
| VStr (s : string)
| VNum (n : Z).

(** A JavaScript object used as a string-keyed map:
    [config.githubContext] and the parameter objects handed to
    [octokit.request]. *)
Abbreviation Params := (gmap string Value).

(** The three route templates the module sends. *)
Inductive Route :=
| GET_runners (per_page page : nat)
| POST_registration_token
| DELETE_runner.

Definition route_string (r : Route) : string :=
  match r with
  | GET_runners per_page page =>
      "GET /repos/{owner}/{repo}/actions/runners?per_page=" +:+ pretty per_page
        +:+ "&page=" +:+ pretty page
  | POST_registration_token =>
      "POST /repos/{owner}/{repo}/actions/runners/registration-token"
  | DELETE_runner =>
      "DELETE /repos/{owner}/{repo}/actions/runners/{runner_id}"
  end.

Record RunnersData := { runners : list Runner.t }.
Record TokenData := { token : string }.

(** Shape of [response.data] for each route. *)
Definition Data (r : Route) : Type :=
  match r with
  | GET_runners _ _ => RunnersData
  | POST_registration_token => TokenData
  | DELETE_runner => unit
  end.

Abbreviation Headers := (list (string * string)).

Record Response (D : Type) := {
  http_status : Z;
  headers : Headers;
  data : D
}.
Arguments http_status {D} _.
Arguments headers {D} _.
Arguments data {D} _.

(** Values a JavaScript [throw] or a promise rejection may carry here:
    the client's request error, or the plain string passed to [reject]. *)
Inductive Thrown :=
| RequestError (code : Z) (message : string)
| Reason (message : string).

(** ** Observable effects *)

Inductive Level := Info | Error.

(** The arguments of [stringify] (that is [JSON.stringify(obj, null, 2)]);
    the rendering only ever ends up inside a log line and is kept
    symbolic. *)
Inductive Json :=
| JHeaders (h : Headers)
| JRunners (rs : list Runner.t)
| JRunner (r : option Runner.t).

(** A log line: either plain text, or a text prefix followed by
    [stringify] of a value. *)
Inductive Message :=
| Text (s : string)
| TextJson (s : string) (j : Json).

Inductive Event :=
| Log (lvl : Level) (m : Message)
| Request (r : Route) (params : Params)
| Timer (ms : Z).

(** The authenticated client: the answer to a request may depend on
    everything that happened before it. *)
Definition Octokit : Type :=
  list Event -> forall r : Route, Params -> Thrown + Response (Data r).

Record Input := { githubToken : string; label : string }.

(** The read-only part of [config] and the [github] client factory. *)
Record Env := {
  input : Input;
  getOctokit : string -> Octokit
}.

(** The mutable part: the effect history and [config.githubContext]. *)
Record World := {
  trace : list Event;
  githubContext : Params
}.

(** ** A state-and-exception monad with fuel exhaustion *)

Inductive Result (A : Type) :=
| Ok (a : A)
| Throw (e : Thrown)
| OutOfFuel.
Arguments Ok {A} _.
Arguments Throw {A} _.
Arguments OutOfFuel {A}.

Definition M (A : Type) : Type := World -> Result A * World.

Definition ret {A} (a : A) : M A := fun w => (Ok a, w).

Definition bind {A B} (m : M A) (k : A -> M B) : M B :=
  fun w =>
    match m w with
    | (Ok a, w') => k a w'
    | (Throw e, w') => (Throw e, w')
    | (OutOfFuel, w') => (OutOfFuel, w')
    end.

Definition throw {A} (e : Thrown) : M A := fun w => (Throw e, w).

Definition out_of_fuel {A} : M A := fun w => (OutOfFuel, w).

(** [try { body } catch (error) { handler(error) }] *)
Definition try_catch {A} (body : M A) (handler : Thrown -> M A) : M A :=
  fun w =>
    match body w with
    | (Throw e, w') => handler e w'
    | r => r
    end.

Declare Scope gh_scope.
Delimit Scope gh_scope with gh.
Notation "x <- m ;; k" := (bind m (fun x => k))
  (at level 100, m at next level, right associativity) : gh_scope.
Notation "m ;;; k" := (bind m (fun _ => k))
  (at level 100, right associativity) : gh_scope.
Local Open Scope gh_scope.

Definition emit (e : Event) : M unit :=
  fun w => (Ok tt, {| trace := (trace w ++ [e])%list; githubContext := githubContext w |}).

Definition core_info (m : Message) : M unit := emit (Log Info m).
Definition core_error (m : Message) : M unit := emit (Log Error m).

(** [await new Promise((r) => setTimeout(r, ms))], and one period of the
    repeating timer. *)
Definition sleep (ms : Z) : M unit := emit (Timer ms).

(** Reading [config.githubContext] yields the shared object itself. *)
Definition config_githubContext : M Params :=
  fun w => (Ok (githubContext w), w).

(** [await octokit.request(route, params)] *)
Definition request (octokit : Octokit) (r : Route) (params : Params)
  : M (Response (Data r)) :=
  fun w =>
    let w' := {| trace := (trace w ++ [Request r params])%list;
                 githubContext := githubContext w |} in
    match octokit (trace w) r params with
    | inl e => (Throw e, w')
    | inr response => (Ok response, w')
    end.

(** ** The parts of lodash the module uses *)

Module lodash.

(** [cacheHas(seen, othIndex)] *)
Definition cacheHas (seen : list nat) (othIndex : nat) : bool :=
  existsb (Nat.eqb othIndex) seen.

(** [arraySome(other, predicate)], returning the index at which the
    predicate first holds; the index is what the caller pushes to
    [seen]. *)
Fixpoint arraySome {B} (predicate : B -> nat -> bool) (other : list B)
    (othIndex : nat) : option nat :=
  match other with
  | [] => None
  | othValue :: rest =>
      if predicate othValue othIndex then Some othIndex
      else arraySome predicate rest (S othIndex)
  end.

(** The element loop of [equalArrays] under
    [COMPARE_PARTIAL_FLAG | COMPARE_UNORDERED_FLAG]: every source element
    must equal some not yet used element of [other]. *)
Fixpoint equalArrays_loop {A B} (equalFunc : A -> B -> bool)
    (array : list A) (other : list B) (seen : list nat) : bool :=
  match array with
  | [] => true
  | arrValue :: rest =>
      match arraySome
              (fun othValue othIndex =>
                 negb (cacheHas seen othIndex) && equalFunc arrValue othValue)
              other 0%nat with
      | Some othIndex => equalArrays_loop equalFunc rest other (othIndex :: seen)
      | None => false
      end
  end.

(** [equalArrays(array, other, PARTIAL | UNORDERED, ...)], where [array]
    is the source pattern and [other] the inspected value. *)
Definition equalArrays {A B} (equalFunc : A -> B -> bool)
    (array : list A) (other : list B) : bool :=
  let arrLength := length array in
  let othLength := length other in
  if negb (arrLength =? othLength)%nat && negb (arrLength <? othLength)%nat
  then false
  else equalArrays_loop equalFunc array other [].

(** [_.filter(collection, predicate)] *)
Definition filter {A} (predicate : A -> bool) (collection : list A) : list A :=
  List.filter predicate collection.

(** [_.merge(object, source)] for objects holding primitive values:
    every key of [source] is assigned into [object]. *)
Definition merge (object source : Params) : Params := source ∪ object.

End lodash.

(** The source pattern [{ name: label }] against a label entry: the only
    key of the pattern is [name], compared with [===]. *)
Definition matches_name (source : Label.t) (entry : Label.t) : bool :=
  String.eqb (Label.name source) (Label.name entry).

(** [_.matches({ labels: [{ name: label }] })] *)
Definition matches_labels (label : string) (runner : Runner.t) : bool :=
  lodash.equalArrays matches_name [Label.mk label] (Runner.labels runner).

(** [_.merge(config.githubContext, source)]: lodash assigns into its first
    argument and returns it, so the shared object itself is updated. *)
Definition merge_githubContext (source : Params) : M Params :=
  fun w =>
    let merged := lodash.merge (githubContext w) source in
    (Ok merged, {| trace := trace w; githubContext := merged |}).

(** ** [getRunner] *)

Definition PAGE_SIZE : nat := 100.

Definition dquote : string := String (Ascii.ascii_of_nat 34) EmptyString.
Definition newline : string := String (Ascii.ascii_of_nat 10) EmptyString.

Definition get_runner_message (label : string) : Message :=
  Text ("Get runner with label " +:+ dquote +:+ label +:+ dquote).

(** The [while (!done)] loop of [getRunner]; [fuel] bounds the number of
    iterations. *)
Fixpoint getRunner_loop (fuel : nat) (octokit : Octokit) (page : nat)
    (runners_acc : list Runner.t) : M (list Runner.t) :=
  match fuel with
  | O => out_of_fuel
  | S fuel' =>
      let route := GET_runners PAGE_SIZE page in
      core_info (Text ("Sending request: " +:+ route_string route)) ;;;
      params <- config_githubContext ;;
      response <- request octokit route params ;;
      core_info (Text ("Received "
                       +:+ pretty (length (runners (data response)))
                       +:+ " runners from GitHub.")) ;;;
      core_info (TextJson "Response headers: " (JHeaders (headers response))) ;;;
      let runners_acc := (runners_acc ++ runners (data response))%list in
      let done := (length (runners (data response)) <? PAGE_SIZE)%nat in
      if done then ret runners_acc
      else getRunner_loop fuel' octokit (S page) runners_acc
  end.

(** [foundRunners.length > 0 ? foundRunners[0] : null] *)
Definition first_or_null {A} (foundRunners : list A) : option A :=
  match foundRunners with
  | r :: _ => Some r
  | [] => None
  end.

Definition getRunner (env : Env) (fuel : nat) (label : string)
  : M (option Runner.t) :=
  core_info (get_runner_message label) ;;;
  let octokit := getOctokit env (githubToken (input env)) in
  try_catch
    (all <- getRunner_loop fuel octokit 1 [] ;;
     core_info (Text ("Got " +:+ pretty (length all)
                      +:+ " runners in total from GitHub for this repository.")) ;;;
     core_info (TextJson ("All runners:" +:+ newline) (JRunners all)) ;;;
     let foundRunners := lodash.filter (matches_labels label) all in
     let found := first_or_null foundRunners in
     core_info (TextJson "Found result: " (JRunner found)) ;;;
     ret found)
    (fun error => ret None).

(** ** [getRegistrationToken] *)

Definition getRegistrationToken (env : Env) : M string :=
  let octokit := getOctokit env (githubToken (input env)) in
  try_catch
    (params <- config_githubContext ;;
     response <- request octokit POST_registration_token params ;;
     core_info (Text "GitHub Registration Token is received") ;;;
     ret (token (data response)))
    (fun error =>
       core_error (Text "GitHub Registration Token receiving error") ;;;
       throw error).

(** ** [removeRunner] *)

Definition removeRunner (env : Env) (fuel : nat) : M unit :=
  runner <- getRunner env fuel (label (input env)) ;;
  let octokit := getOctokit env (githubToken (input env)) in
  match runner with
  | None =>
      core_info (Text ("GitHub self-hosted runner with label "
                       +:+ label (input env)
                       +:+ " is not found, so the removal is skipped")) ;;;
      ret tt
  | Some runner =>
      try_catch
        (params <- merge_githubContext {[ "runner_id" := VNum (Runner.id runner) ]} ;;
         request octokit DELETE_runner params ;;;
         core_info (Text ("GitHub self-hosted runner " +:+ Runner.name runner
                          +:+ " is removed")) ;;;
         ret tt)
        (fun error =>
           core_error (Text "GitHub self-hosted runner removal error") ;;;
           throw error)
  end.

(** ** [waitForRunnerRegistered] *)

Definition timeoutMinutes : Z := 5.
Definition retryIntervalSeconds : Z := 10.
Definition quietPeriodSeconds : Z := 30.

(** Settlement state of the promise returned by the waiter. *)
Inductive PromiseState :=
| Pending
| Resolved
| Rejected (reason : string).

(** What the timer callback closes over: the counter, whether the
    repeating timer is still armed, and the promise. *)
Record WaitState := {
  waitSeconds : Z;
  interval : bool;
  promise : PromiseState
}.

Definition clearInterval (st : WaitState) : WaitState :=
  {| waitSeconds := waitSeconds st; interval := false; promise := promise st |}.

(** [resolve()] and [reject(reason)] settle a pending promise and do
    nothing to a settled one. *)
Definition resolve (st : WaitState) : WaitState :=
  match promise st with
  | Pending =>
      {| waitSeconds := waitSeconds st; interval := interval st; promise := Resolved |}
  | _ => st
  end.

Definition reject (reason : string) (st : WaitState) : WaitState :=
  match promise st with
  | Pending =>
      {| waitSeconds := waitSeconds st; interval := interval st;
         promise := Rejected reason |}
  | _ => st
  end.

Definition add_waitSeconds (d : Z) (st : WaitState) : WaitState :=
  {| waitSeconds := waitSeconds st + d; interval := interval st;
     promise := promise st |}.

Definition timeout_message : string :=
  "A timeout of " +:+ pretty timeoutMinutes
    +:+ " minutes is exceeded. Your AWS EC2 instance was not able to register itself in GitHub as a new self-hosted runner.".

(** [runner && runner.status === 'online'] *)
Definition is_online (runner : option Runner.t) : bool :=
  match runner with
  | Some r => String.eqb (Runner.status r) "online"
  | None => false
  end.

(** The first [if] of the timer callback. *)
Definition check_timeout (st : WaitState) : M WaitState :=
  if waitSeconds st >? timeoutMinutes * 60 then
    core_error (Text "GitHub self-hosted runner registration error") ;;;
    ret (reject timeout_message (clearInterval st))
  else ret st.

(** The second [if] of the timer callback; [runner.name] is only read
    in the branch where [runner] is not null. *)
Definition check_online (runner : option Runner.t) (st : WaitState) : M WaitState :=
  let otherwise :=
    let st := add_waitSeconds retryIntervalSeconds st in
    core_info (Text "Checking...") ;;;
    ret st in
  match runner with
  | Some r =>
      if String.eqb (Runner.status r) "online" then
        core_info (Text ("GitHub self-hosted runner " +:+ Runner.name r
                         +:+ " is registered and ready to use")) ;;;
        ret (resolve (clearInterval st))
      else otherwise
  | None => otherwise
  end.

(** One run of the [setInterval] callback. *)
Definition tick (env : Env) (fuel : nat) (label : string) (st : WaitState)
  : M WaitState :=
  runner <- getRunner env fuel label ;;
  st <- check_timeout st ;;
  check_online runner st.

(** The repeating timer in its serialised schedule: the callback runs
    every [retryIntervalSeconds] until [clearInterval], and each run,
    its locator call included, finishes before the next period ends.
    [setInterval] itself does not wait for an earlier run: when a listing
    takes longer than one period, further runs start while earlier ones
    are still awaiting [getRunner], the locator is called more often and
    several runs can reach the timeout branch. That overlapping schedule is
    outside this function; what is proved about whole waits holds for waits
    whose locator calls each return within the period. [n] bounds the
    number of periods. *)
Fixpoint run_interval (env : Env) (n fuel : nat) (label : string)
    (st : WaitState) : M WaitState :=
  match n with
  | O => out_of_fuel
  | S n' =>
      sleep (retryIntervalSeconds * 1000) ;;;
      st <- tick env fuel label st ;;
      if interval st then run_interval env n' fuel label st else ret st
  end.

(** Awaiting the returned promise. *)
Definition await_promise (st : WaitState) : M unit :=
  match promise st with
  | Resolved => ret tt
  | Rejected reason => throw (Reason reason)
  | Pending => out_of_fuel
  end.

Definition waitForRunnerRegistered (env : Env) (n fuel : nat) (label : string)
  : M unit :=
  let waitSeconds0 := 0 in
  core_info (Text ("Waiting " +:+ pretty quietPeriodSeconds
                   +:+ "s for the AWS EC2 instance to be registered in GitHub as a new self-hosted runner")) ;;;
  sleep (quietPeriodSeconds * 1000) ;;;
  core_info (Text ("Checking every " +:+ pretty retryIntervalSeconds
                   +:+ "s if the GitHub self-hosted runner is registered")) ;;;
  st <- run_interval env n fuel label
          {| waitSeconds := waitSeconds0; interval := true; promise := Pending |} ;;
  await_promise st.

(** ** Reading a trace *)

Definition request_of (e : Event) : option (Route * Params) :=
  match e with
  | Request r params => Some (r, params)
  | _ => None
  end.

(** The requests sent, in the order they were sent. *)
Definition requests (tr : list Event) : list (Route * Params) :=
  omap request_of tr.

Definition count_events (f : Event -> bool) (tr : list Event) : nat :=
  length (List.filter f tr).

Definition is_delete (e : Event) : bool :=
  match e with Request DELETE_runner _ => true | _ => false end.

Definition is_post (e : Event) : bool :=
  match e with Request POST_registration_token _ => true | _ => false end.

Definition is_error_log (e : Event) : bool :=
  match e with Log Error _ => true | _ => false end.

Definition is_timer (e : Event) : bool :=
  match e with Timer _ => true | _ => false end.

(** The first statement of [getRunner] logs a line no other statement of
    the module logs, so that line marks one invocation of the locator. *)
Definition is_locate (label : string) (e : Event) : bool :=
  match e with
  | Log Info (Text s) =>
      String.eqb s ("Get runner with label " +:+ dquote +:+ label +:+ dquote)
  | _ => false
  end.

(** Events a listing may produce after its first log line. *)
Definition is_listing (label : string) (e : Event) : bool :=
  match e with
  | Log Info _ => negb (is_locate label e)
  | Request (GET_runners _ _) _ => true
  | _ => false
  end.

(** ** The lookup as the specification words it *)

(** A runner "whose labels sequence contains an entry with name exactly
    equal to the label". *)
Definition has_label (label : string) (runner : Runner.t) : Prop :=
  exists entry, In entry (Runner.labels runner) /\ Label.name entry = label.

(** "The first such record in listing order", or no record. *)
Inductive first_with_label (label : string)
  : list Runner.t -> option Runner.t -> Prop :=
| fwl_none all :
    Forall (fun r => ~ has_label label r) all ->
    first_with_label label all None
| fwl_some before r after :
    Forall (fun r' => ~ has_label label r') before ->
    has_label label r ->
    first_with_label label (before ++ r :: after) (Some r).

(** ** Test doubles *)

Definition ok_response {D} (d : D) : Response D :=
  {| http_status := 200; headers := []; data := d |}.

(** A client whose answers do not depend on the history. *)
Definition mock_octokit
    (pages : nat -> Thrown + Response RunnersData)
    (tok : Thrown + Response TokenData)
    (del : Thrown + Response unit) : Octokit :=
  fun _ r _ =>
    match r return Thrown + Response (Data r) with
    | GET_runners _ page => pages page
    | POST_registration_token => tok
    | DELETE_runner => del
    end.

Definition mock_env (octokit : Octokit) : Env :=
  {| input := {| githubToken := "t0ken"; label := "x" |};
     getOctokit := fun _ => octokit |}.

Definition world0 : World :=
  {| trace := [];
     githubContext := {[ "owner" := VStr "scott"; "repo" := VStr "demo" ]} |}.

Definition runner_n (status : string) (n : nat) : Runner.t :=
  Runner.mk (Z.of_nat n) ("r" +:+ pretty n) status [Label.mk ("l" +:+ pretty n)].

(** A full page of a hundred distinct offline runners. *)
Definition full_page (first : nat) : Response RunnersData :=
  ok_response {| runners := map (runner_n "offline") (seq first 100) |}.

Definition empty_page : Response RunnersData :=
  ok_response {| runners := [] |}.

(** The remote sequence 100, 100, 0. *)
Definition pages_100_100_0 (page : nat) : Thrown + Response RunnersData :=
  match page with
  | 1%nat => inr (full_page 1)
  | 2%nat => inr (full_page 101)
  | _ => inr empty_page
  end.

(** The second listing request fails. *)
Definition pages_fail_second (page : nat) : Thrown + Response RunnersData :=
  match page with
  | 1%nat => inr (full_page 1)
  | _ => inl (RequestError 502 "Bad Gateway")
  end.

(** The scenario of the specification: one offline runner labelled x. *)
Definition r1 : Runner.t := Runner.mk 1 "r1" "offline" [Label.mk "x"].

Definition pages_r1 (page : nat) : Thrown + Response RunnersData :=
  inr (ok_response {| runners := [r1] |}).

Definition pages_none (page : nat) : Thrown + Response RunnersData :=
  inr empty_page.

Definition token_abc : Thrown + Response TokenData :=
  inr (ok_response {| token := "abc" |}).

Definition deleted : Thrown + Response unit := inr (ok_response tt).

(** A runner that registers late: it is listed as online only from the
    32nd listing on. *)
Definition late_octokit : Octokit :=
  fun tr r _ =>
    match r return Thrown + Response (Data r) with
    | GET_runners _ _ =>
        let earlier := length (requests tr) in
        let st := if (earlier <? 31)%nat then "offline" else "online" in
        inr (ok_response {| runners := [Runner.mk 7 "late" st [Label.mk "x"]] |})
    | POST_registration_token => token_abc
    | DELETE_runner => deleted
    end.

(** ** Worlds reached by the individual statements *)

(** The world after some more events, with the shared context untouched. *)
Definition logged (evs : list Event) (w : World) : World :=
  {| trace := (trace w ++ evs)%list; githubContext := githubContext w |}.

Definition sending_message (page : nat) : Message :=
  Text ("Sending request: " +:+ route_string (GET_runners PAGE_SIZE page)).

(** What one successful iteration of the listing loop leaves in the
    trace. *)
Definition page_events (params : Params) (page : nat)
    (response : Response RunnersData) : list Event :=
  [Log Info (sending_message page);
   Request (GET_runners PAGE_SIZE page) params;
   Log Info (Text ("Received " +:+ pretty (length (runners (data response)))
                   +:+ " runners from GitHub."));
   Log Info (TextJson "Response headers: " (JHeaders (headers response)))].

(** Lines 36-37 of [getRunner] as a function of the listed runners. *)
Definition found_runner (label : string) (all : list Runner.t) : option Runner.t :=
  first_or_null (lodash.filter (matches_labels label) all).

(** What [getRunner] logs once the listing is complete. *)
Definition found_events (label : string) (all : list Runner.t) : list Event :=
  [Log Info (Text ("Got " +:+ pretty (length all)
                   +:+ " runners in total from GitHub for this repository."));
   Log Info (TextJson ("All runners:" +:+ newline) (JRunners all));
   Log Info (TextJson "Found result: " (JRunner (found_runner label all)))].

(** ** Describing what a remote serves *)

(** A page that does not end the listing, and one that does. *)
Definition is_full (answer : Thrown + Response RunnersData) : Prop :=
  match answer with
  | inr response => (PAGE_SIZE <= length (runners (data response)))%nat
  | inl _ => False
  end.

Definition is_short (answer : Thrown + Response RunnersData) : Prop :=
  match answer with
  | inr response => (length (runners (data response)) < PAGE_SIZE)%nat
  | inl _ => False
  end.

Definition page_runners (pages : nat -> Thrown + Response RunnersData)
    (page : nat) : list Runner.t :=
  match pages page with
  | inr response => runners (data response)
  | inl _ => []
  end.

(** The records of [n] consecutive pages, in page order. *)
Definition collect (pages : nat -> Thrown + Response RunnersData)
    (first n : nat) : list Runner.t :=
  concat (map (page_runners pages) (seq first n)).

(** [n] consecutive listing requests, in page order. *)
Definition page_requests (params : Params) (first n : nat) : list (Route * Params) :=
  map (fun page => (GET_runners PAGE_SIZE page, params)) (seq first n).

(** The client answers listing requests from a fixed table of pages. *)
Definition serves (octokit : Octokit)
    (pages : nat -> Thrown + Response RunnersData) : Prop :=
  forall tr page params, octokit tr (GET_runners PAGE_SIZE page) params = pages page.

(** Three runners: the label x sits at index 1 of the second runner's
    labels and at index 0 of the third runner's. *)
Definition r2 : Runner.t :=
  Runner.mk 2 "r2" "online" [Label.mk "linux"; Label.mk "x64"].
Definition r3 : Runner.t :=
  Runner.mk 3 "r3" "offline" [Label.mk "linux"; Label.mk "x"].
Definition r4 : Runner.t :=
  Runner.mk 4 "r4" "offline" [Label.mk "x"].

Definition pages_three (page : nat) : Thrown + Response RunnersData :=
  inr (ok_response {| runners := [r2; r3; r4] |}).

(** ** Log lines and events of the removal and of the waiter *)

Definition not_found_event (label : string) : Event :=
  Log Info (Text ("GitHub self-hosted runner with label " +:+ label
                  +:+ " is not found, so the removal is skipped")).

Definition removed_event (name : string) : Event :=
  Log Info (Text ("GitHub self-hosted runner " +:+ name +:+ " is removed")).

Definition removal_error_event : Event :=
  Log Error (Text "GitHub self-hosted runner removal error").

Definition token_received_event : Event :=
  Log Info (Text "GitHub Registration Token is received").

Definition token_error_event : Event :=
  Log Error (Text "GitHub Registration Token receiving error").

Definition registration_error_event : Event :=
  Log Error (Text "GitHub self-hosted runner registration error").

Definition registered_event (name : string) : Event :=
  Log Info (Text ("GitHub self-hosted runner " +:+ name
                  +:+ " is registered and ready to use")).

Definition checking_event : Event := Log Info (Text "Checking...").

(** The closure state of a waiter that has neither resolved nor
    rejected. *)
Definition pending (seconds : Z) : WaitState :=
  {| waitSeconds := seconds; interval := true; promise := Pending |}.

Definition waiting_event : Event :=
  Log Info (Text ("Waiting " +:+ pretty quietPeriodSeconds
                  +:+ "s for the AWS EC2 instance to be registered in GitHub as a new self-hosted runner")).

Definition checking_every_event : Event :=
  Log Info (Text ("Checking every " +:+ pretty retryIntervalSeconds
                  +:+ "s if the GitHub self-hosted runner is registered")).

(** What the waiter does before it arms the repeating timer. *)
Definition quiet_period_events : list Event :=
  [waiting_event; Timer (quietPeriodSeconds * 1000); checking_every_event].

(** One period of the repeating timer. *)
Definition period_event : Event := Timer (retryIntervalSeconds * 1000).

(** A remote with no runner at all, and one whose only runner is
    online. *)
Definition env_none : Env := mock_env (mock_octokit pages_none token_abc deleted).

Definition r_online : Runner.t := Runner.mk 9 "r9" "online" [Label.mk "x"].

Definition pages_online (page : nat) : Thrown + Response RunnersData :=
  inr (ok_response {| runners := [r_online] |}).

Definition env_online : Env := mock_env (mock_octokit pages_online token_abc deleted).

(** The world in which the 32nd timer period of a waiter for the late
    runner has just elapsed. *)
Definition world_before_poll_32 : World :=
  logged [period_event]
    (snd (waitForRunnerRegistered (mock_env late_octokit) 31 1 "x" world0)).

Definition token_forbidden : Thrown + Response TokenData :=
  inl (RequestError 403 "Forbidden").

Definition delete_fails : Thrown + Response unit :=
  inl (RequestError 500 "Internal Server Error").

(** ** Timer time and further test doubles *)

(** The milliseconds spent in timers, that is the time the module itself
    lets pass. *)
Definition timer_ms (tr : list Event) : Z :=
  foldr (fun e acc => match e with Timer ms => ms + acc | _ => acc end) 0 tr.

(** A remote that answers every page request with a full page. *)
Definition pages_all_full (page : nat) : Thrown + Response RunnersData :=
  inr (full_page 1).

(** A remote that refuses every listing request. *)
Definition pages_unauthorized (page : nat) : Thrown + Response RunnersData :=
  inl (RequestError 401 "Bad credentials").

Definition env_unauthorized : Env :=
  mock_env (mock_octokit pages_unauthorized token_abc deleted).

(** A remote whose runner labelled x is listed as online once the locator
    has been called [first] times, the current call included. *)
Definition online_from (first : nat) : Octokit :=
  fun tr r _ =>
    match r return Thrown + Response (Data r) with
    | GET_runners _ _ =>
        let calls := count_events (is_locate "x") tr in
        let st := if (first <=? calls)%nat then "online" else "offline" in
        inr (ok_response {| runners := [Runner.mk 7 "late" st [Label.mk "x"]] |})
    | POST_registration_token => token_abc
    | DELETE_runner => deleted
    end.

(** A request of the listing kind. *)
Definition is_listing_request (rq : Route * Params) : Prop :=
  exists per_page page, fst rq = GET_runners per_page page.

(** * Properties *)

(** ** Bookkeeping *)

Lemma logged_nil w : logged [] w = w.
Proof. destruct w; unfold logged; simpl. by rewrite app_nil_r. Qed.

Lemma logged_logged e1 e2 w : logged e2 (logged e1 w) = logged (e1 ++ e2) w.
Proof. unfold logged; simpl. by rewrite app_assoc. Qed.

Lemma emit_logged e w : emit e w = (Ok tt, logged [e] w).
Proof. reflexivity. Qed.

Lemma getRunner_loop_S fuel octokit page acc w :
  getRunner_loop (S fuel) octokit page acc w =
  match octokit (trace w ++ [Log Info (sending_message page)])%list
                (GET_runners PAGE_SIZE page) (githubContext w) with
  | inl e =>
      (Throw e, logged [Log Info (sending_message page);
                        Request (GET_runners PAGE_SIZE page) (githubContext w)] w)
  | inr response =>
      let w' := logged (page_events (githubContext w) page response) w in
      let acc' := (acc ++ runners (data response))%list in
      if (length (runners (data response)) <? PAGE_SIZE)%nat then (Ok acc', w')
      else getRunner_loop fuel octokit (S page) acc' w'
  end.
Proof.
  cbn [getRunner_loop].
  unfold bind at 1. unfold core_info. rewrite emit_logged.
  unfold bind at 1. unfold config_githubContext.
  unfold bind at 1. unfold request.
  cbn [trace githubContext logged].
  destruct (octokit _ _ _) as [e|response].
  - unfold logged. by rewrite <- app_assoc.
  - unfold bind at 1. rewrite emit_logged.
    unfold bind at 1. rewrite emit_logged.
    cbn zeta.
    set (w1 := logged _ (logged _ _)).
    assert (w1 = logged (page_events (githubContext w) page response) w) as ->.
    { unfold w1, logged, page_events, sending_message. cbn [trace githubContext].
      by rewrite <- !app_assoc. }
    by destruct (_ <? _)%nat.
Qed.

Lemma getRunner_eq env fuel label w :
  getRunner env fuel label w =
  match getRunner_loop fuel (getOctokit env (githubToken (input env))) 1 []
          (logged [Log Info (get_runner_message label)] w) with
  | (Ok all, w1) => (Ok (found_runner label all), logged (found_events label all) w1)
  | (Throw e, w1) => (Ok None, w1)
  | (OutOfFuel, w1) => (OutOfFuel, w1)
  end.
Proof.
  unfold getRunner. unfold bind at 1. unfold core_info. rewrite emit_logged.
  unfold try_catch. unfold bind at 1.
  destruct (getRunner_loop _ _ _ _ _) as [[all|e|] w1]; try reflexivity.
  unfold bind, core_info. rewrite !emit_logged, !logged_logged. reflexivity.
Qed.

Lemma count_events_app f tr1 tr2 :
  count_events f (tr1 ++ tr2) = (count_events f tr1 + count_events f tr2)%nat.
Proof. unfold count_events. by rewrite List.filter_app, length_app. Qed.

Lemma count_events_cons f e tr :
  count_events f (e :: tr)
  = ((if f e then 1 else 0) + count_events f tr)%nat.
Proof. unfold count_events. simpl. by destruct (f e). Qed.

Lemma count_events_none (f g : Event -> bool) evs :
  (forall e, g e = true -> f e = false) ->
  Forall (fun e => g e = true) evs ->
  count_events f evs = 0%nat.
Proof.
  intros Hfg Hall. unfold count_events.
  induction Hall as [|e evs He _ IH]; [done|].
  simpl. by rewrite (Hfg e He).
Qed.

Lemma requests_app tr1 tr2 : requests (tr1 ++ tr2) = (requests tr1 ++ requests tr2)%list.
Proof. unfold requests. apply omap_app. Qed.

Lemma is_listing_sending label page :
  is_listing label (Log Info (sending_message page)) = true.
Proof. reflexivity. Qed.

Lemma page_events_listing label params page response :
  Forall (fun e => is_listing label e = true) (page_events params page response).
Proof. repeat constructor. Qed.

Lemma found_events_listing label all :
  Forall (fun e => is_listing label e = true) (found_events label all).
Proof. repeat constructor. Qed.

(** The listing loop only ever logs and sends listing requests; it leaves
    the shared context alone. *)
Lemma getRunner_loop_frame label octokit fuel :
  forall page acc w r w',
    getRunner_loop fuel octokit page acc w = (r, w') ->
    exists evs, w' = logged evs w /\ Forall (fun e => is_listing label e = true) evs.
Proof.
  induction fuel as [|fuel IH]; intros page acc w r w' Hrun.
  - inversion Hrun; subst. exists []. by rewrite logged_nil.
  - rewrite getRunner_loop_S in Hrun.
    destruct (octokit _ _ _) as [e|response].
    + inversion Hrun; subst. eexists; split; [reflexivity|]. repeat constructor.
    + cbn zeta in Hrun. destruct (_ <? _)%nat.
      * inversion Hrun; subst. eexists; split; [reflexivity|].
        apply page_events_listing.
      * apply IH in Hrun as (evs & -> & Hevs).
        rewrite logged_logged. eexists; split; [reflexivity|].
        apply Forall_app; split; [apply page_events_listing | done].
Qed.

(** [getRunner] logs its marker line once, then behaves like a listing;
    it never throws and never touches the shared context. *)
Lemma getRunner_frame env fuel label w r w' :
  getRunner env fuel label w = (r, w') ->
  (forall e, r <> Throw e) /\
  exists evs,
    w' = logged (Log Info (get_runner_message label) :: evs) w /\
    Forall (fun e => is_listing label e = true) evs.
Proof.
  rewrite getRunner_eq.
  destruct (getRunner_loop _ _ _ _ _) as [[all|e|] w1] eqn:Hloop;
    apply (getRunner_loop_frame label) in Hloop as (evs & -> & Hevs);
    intros Hrun; inversion Hrun; subst; (split; [done|]);
    rewrite ?logged_logged; eexists; (split; [reflexivity|]); simpl; try done.
  apply Forall_app; split; [done | apply found_events_listing].
Qed.

(** ** The paginated listing *)

Section Listing.
Variable octokit : Octokit.
Variable pages : nat -> Thrown + Response RunnersData.
Hypothesis Hserves : serves octokit pages.

Lemma collect_S first n :
  collect pages first (S n) = (page_runners pages first ++ collect pages (S first) n)%list.
Proof. reflexivity. Qed.

Lemma page_requests_S params first n :
  page_requests params first (S n)
  = (GET_runners PAGE_SIZE first, params) :: page_requests params (S first) n.
Proof. reflexivity. Qed.

Lemma requests_page_events params page response :
  requests (page_events params page response) = [(GET_runners PAGE_SIZE page, params)].
Proof. reflexivity. Qed.

(** A full page makes the loop go round once more. *)
Lemma getRunner_loop_full fuel page acc w :
  is_full (pages page) ->
  exists w1,
    getRunner_loop (S fuel) octokit page acc w
    = getRunner_loop fuel octokit (S page) (acc ++ page_runners pages page) w1 /\
    githubContext w1 = githubContext w /\
    requests (trace w1)
    = (requests (trace w) ++ [(GET_runners PAGE_SIZE page, githubContext w)])%list.
Proof.
  intros Hfull. rewrite getRunner_loop_S, Hserves.
  unfold is_full, page_runners in *.
  destruct (pages page) as [e|response]; [done|]. cbn zeta. cbn [Data].
  apply Nat.ltb_ge in Hfull. rewrite Hfull.
  eexists; split; [reflexivity|]. split; [done|].
  cbn [logged trace]. by rewrite requests_app, requests_page_events.
Qed.

(** A short page ends it. *)
Lemma getRunner_loop_short fuel page acc w :
  is_short (pages page) ->
  exists w1,
    getRunner_loop (S fuel) octokit page acc w
    = (Ok (acc ++ page_runners pages page)%list, w1) /\
    githubContext w1 = githubContext w /\
    requests (trace w1)
    = (requests (trace w) ++ [(GET_runners PAGE_SIZE page, githubContext w)])%list.
Proof.
  intros Hshort. rewrite getRunner_loop_S, Hserves.
  unfold is_short, page_runners in *.
  destruct (pages page) as [e|response]; [done|]. cbn zeta. cbn [Data].
  apply Nat.ltb_lt in Hshort. rewrite Hshort.
  eexists; split; [reflexivity|]. split; [done|].
  cbn [logged trace]. by rewrite requests_app, requests_page_events.
Qed.

(** A failing request ends it with the request's error. *)
Lemma getRunner_loop_error fuel page acc w e :
  pages page = inl e ->
  exists w1,
    getRunner_loop (S fuel) octokit page acc w = (Throw e, w1) /\
    githubContext w1 = githubContext w /\
    requests (trace w1)
    = (requests (trace w) ++ [(GET_runners PAGE_SIZE page, githubContext w)])%list.
Proof.
  intros Herr. rewrite getRunner_loop_S, Hserves, Herr.
  eexists; split; [reflexivity|]. split; [done|].
  cbn [logged trace]. by rewrite requests_app.
Qed.

(** [k] full pages followed by a short one. *)
Lemma getRunner_loop_pages k :
  forall fuel page acc w,
    (k < fuel)%nat ->
    (forall q, (page <= q < page + k)%nat -> is_full (pages q)) ->
    is_short (pages (page + k)) ->
    exists w',
      getRunner_loop fuel octokit page acc w
      = (Ok (acc ++ collect pages page (S k))%list, w') /\
      githubContext w' = githubContext w /\
      requests (trace w')
      = (requests (trace w) ++ page_requests (githubContext w) page (S k))%list.
Proof.
  induction k as [|k IH]; intros fuel page acc w Hfuel Hfull Hshort;
    (destruct fuel as [|fuel]; [lia|]).
  - rewrite Nat.add_0_r in Hshort.
    destruct (getRunner_loop_short fuel page acc w Hshort) as (w1 & -> & Hctx & Hreq).
    exists w1. rewrite collect_S. unfold collect at 1. simpl concat.
    by rewrite app_nil_r.
  - destruct (getRunner_loop_full fuel page acc w) as (w1 & -> & Hctx & Hreq).
    { apply Hfull. lia. }
    destruct (IH fuel (S page) (acc ++ page_runners pages page)%list w1)
      as (w' & -> & Hctx' & Hreq').
    { lia. }
    { intros q Hq. apply Hfull. lia. }
    { by replace (S page + k)%nat with (page + S k)%nat by lia. }
    exists w'. rewrite (collect_S page (S k)), app_assoc.
    split; [done|]. split; [congruence|].
    rewrite Hreq', Hreq, Hctx, (page_requests_S _ page (S k)), <- app_assoc.
    reflexivity.
Qed.

(** [k] full pages followed by a failing request. *)
Lemma getRunner_loop_pages_error k e :
  forall fuel page acc w,
    (k < fuel)%nat ->
    (forall q, (page <= q < page + k)%nat -> is_full (pages q)) ->
    pages (page + k) = inl e ->
    exists w',
      getRunner_loop fuel octokit page acc w = (Throw e, w') /\
      githubContext w' = githubContext w /\
      requests (trace w')
      = (requests (trace w) ++ page_requests (githubContext w) page (S k))%list.
Proof.
  induction k as [|k IH]; intros fuel page acc w Hfuel Hfull Herr;
    (destruct fuel as [|fuel]; [lia|]).
  - rewrite Nat.add_0_r in Herr.
    destruct (getRunner_loop_error fuel page acc w e Herr) as (w1 & -> & Hctx & Hreq).
    by exists w1.
  - destruct (getRunner_loop_full fuel page acc w) as (w1 & -> & Hctx & Hreq).
    { apply Hfull. lia. }
    destruct (IH fuel (S page) (acc ++ page_runners pages page)%list w1)
      as (w' & -> & Hctx' & Hreq').
    { lia. }
    { intros q Hq. apply Hfull. lia. }
    { by replace (S page + k)%nat with (page + S k)%nat by lia. }
    exists w'. split; [done|]. split; [congruence|].
    rewrite Hreq', Hreq, Hctx, (page_requests_S _ page (S k)), <- app_assoc.
    reflexivity.
Qed.

(** Pages of exactly the page size add up as expected. *)
Lemma length_collect_exact first n :
  (forall q, (first <= q < first + n)%nat ->
             length (page_runners pages q) = PAGE_SIZE) ->
  length (collect pages first n) = (n * PAGE_SIZE)%nat.
Proof.
  revert first. induction n as [|n IH]; intros first Hexact; [done|].
  rewrite collect_S, length_app, IH, Hexact; [lia | lia |].
  intros q Hq. apply Hexact. lia.
Qed.

Lemma collect_snoc first n :
  collect pages first (S n)
  = (collect pages first n ++ page_runners pages (first + n))%list.
Proof.
  unfold collect. rewrite seq_S, map_app, concat_app. simpl.
  by rewrite app_nil_r.
Qed.

End Listing.

(** ** The label match *)

(** With nothing marked as used, [arraySome] is a plain search. *)
Lemma arraySome_fresh (f : Label.t -> bool) (other : list Label.t) :
  forall i,
    lodash.arraySome (fun v j => negb (lodash.cacheHas [] j) && f v) other i = None
    <-> Forall (fun v => f v = false) other.
Proof.
  induction other as [|v other IH]; intros i; simpl.
  - split; [constructor | done].
  - destruct (f v) eqn:Hv.
    + split; [done|]. intros Hall. inversion Hall; congruence.
    + rewrite IH. split; [by constructor | by inversion 1].
Qed.

Lemma arraySome_found (f : Label.t -> bool) (other : list Label.t) :
  forall i k,
    lodash.arraySome (fun v j => negb (lodash.cacheHas [] j) && f v) other i = Some k ->
    exists v, In v other /\ f v = true.
Proof.
  induction other as [|v other IH]; intros i k; simpl; [done|].
  destruct (f v) eqn:Hv.
  - intros _. exists v. by split; [left|].
  - intros Hrest. apply IH in Hrest as (v' & Hin & Hv'). exists v'. by split; [right|].
Qed.

(** The lodash pattern accepts a runner exactly when one of its label
    entries, at whatever index, is named [label]. *)
Lemma matches_labels_spec label runner :
  matches_labels label runner = true <-> has_label label runner.
Proof.
  unfold matches_labels, lodash.equalArrays, has_label.
  destruct (Runner.labels runner) as [|entry0 rest] eqn:Hlabels.
  - simpl. split; [done|]. by intros (entry & [] & _).
  - replace (negb (length [Label.mk label] =? length (entry0 :: rest))%nat
             && negb (length [Label.mk label] <? length (entry0 :: rest))%nat)
      with false by (by destruct rest).
    cbn [lodash.equalArrays_loop].
    destruct (lodash.arraySome _ _ _) as [i|] eqn:Hsome.
    + split; [intros _ | done].
      apply arraySome_found in Hsome as (entry & Hin & Hname).
      exists entry. split; [done|].
      unfold matches_name in Hname. apply String.eqb_eq in Hname. by simpl in Hname.
    + split; [done|]. intros (entry & Hin & Hname).
      apply arraySome_fresh in Hsome. rewrite List.Forall_forall in Hsome.
      specialize (Hsome entry Hin). unfold matches_name in Hsome.
      simpl in Hsome. rewrite <- Hname, String.eqb_refl in Hsome. done.
Qed.

Lemma matches_labels_false label runner :
  matches_labels label runner = false <-> ~ has_label label runner.
Proof.
  rewrite <- matches_labels_spec. by destruct (matches_labels label runner).
Qed.

(** Lines 36-37 pick the first runner carrying the label. *)
Lemma found_runner_split label all :
  match found_runner label all with
  | None => Forall (fun r => ~ has_label label r) all
  | Some r =>
      exists before after,
        all = (before ++ r :: after)%list /\
        Forall (fun r' => ~ has_label label r') before /\
        has_label label r
  end.
Proof.
  unfold found_runner, lodash.filter.
  induction all as [|r all IH]; simpl; [constructor|].
  destruct (matches_labels label r) eqn:Hr; simpl.
  - exists [], all. split; [done|]. split; [constructor|].
    by apply matches_labels_spec.
  - apply matches_labels_false in Hr.
    destruct (first_or_null (List.filter (matches_labels label) all)) as [r'|].
    + destruct IH as (before & after & -> & Hbefore & Hr').
      exists (r :: before), after. split; [done|]. split; [by constructor | done].
    + by constructor.
Qed.

Lemma found_runner_first label all :
  first_with_label label all (found_runner label all).
Proof.
  pose proof (found_runner_split label all) as H.
  destruct (found_runner label all) as [r|].
  - destruct H as (before & after & -> & Hbefore & Hr). by constructor.
  - by constructor.
Qed.

(** The description determines the answer. *)
Lemma first_split_unique (P : Runner.t -> Prop) before :
  forall before' r r' after after',
    (before ++ r :: after)%list = (before' ++ r' :: after')%list ->
    Forall (fun x => ~ P x) before -> P r ->
    Forall (fun x => ~ P x) before' -> P r' ->
    r = r'.
Proof.
  induction before as [|b before IH];
    intros [|b' before'] r r' after after' Heq Hb Hr Hb' Hr';
    simpl in Heq; inversion Heq; subst.
  - done.
  - inversion Hb'; subst. done.
  - inversion Hb; subst. done.
  - inversion Hb; inversion Hb'; subst. eauto.
Qed.

Lemma first_with_label_unique label all x y :
  first_with_label label all x -> first_with_label label all y -> x = y.
Proof.
  intros Hx Hy.
  inversion Hx as [all1 Hnone1 | before1 r1 after1 Hbefore1 Hr1]; subst;
    inversion Hy as [all2 Hnone2 E2 | before2 r2 after2 Hbefore2 Hr2 E2]; subst.
  - done.
  - apply Forall_app in Hnone1 as [_ Hnone1]. inversion Hnone1; subst. done.
  - apply Forall_app in Hnone2 as [_ Hnone2]. inversion Hnone2; subst. done.
  - f_equal. symmetry in E2.
    by apply (first_split_unique (has_label label) _ _ _ _ _ _ E2).
Qed.

(** ** Properties of [getRunner] *)

(** C4. The lister asks for pages of [PAGE_SIZE] = 100 records starting at
    page 1, one page index after the other, appends the records of each
    page in page order, and stops at the first page holding fewer than 100
    records: when pages [1 .. last-1] are full and page [last] is short,
    exactly the requests for pages [1 .. last] are sent, in that order, and
    the result is the concatenation of those pages.  When the full pages
    hold exactly 100 records each, the result has
    [(last - 1) * 100 + |page last|] records; for the sequence 100, 100, 0
    this is three requests and 200 records. *)
Theorem lister_stops_at_first_short_page octokit pages last fuel w :
  serves octokit pages ->
  (1 <= last <= fuel)%nat ->
  (forall q, (1 <= q < last)%nat -> is_full (pages q)) ->
  is_short (pages last) ->
  exists w',
    getRunner_loop fuel octokit 1 [] w = (Ok (collect pages 1 last), w') /\
    requests (trace w')
    = (requests (trace w) ++ page_requests (githubContext w) 1 last)%list /\
    length (page_requests (githubContext w) 1 last) = last /\
    ((forall q, (1 <= q < last)%nat -> length (page_runners pages q) = PAGE_SIZE) ->
     length (collect pages 1 last)
     = ((last - 1) * PAGE_SIZE + length (page_runners pages last))%nat).
Proof.
  intros Hserves [Hlast Hfuel] Hfull Hshort.
  destruct last as [|k]; [lia|].
  destruct (getRunner_loop_pages octokit pages Hserves k fuel 1 [] w)
    as (w' & Hrun & _ & Hreq).
  { lia. }
  { intros q Hq. apply Hfull. lia. }
  { done. }
  exists w'. split; [done|]. split; [done|]. split.
  - unfold page_requests. by rewrite length_map, length_seq.
  - intros Hexact. rewrite collect_snoc, length_app.
    rewrite (length_collect_exact pages 1 k).
    + replace (S k - 1)%nat with k by lia. reflexivity.
    + intros q Hq. apply Hexact. lia.
Qed.

Lemma lister_100_100_0 :
  exists all w',
    getRunner_loop 3 (mock_octokit pages_100_100_0 token_abc deleted) 1 [] world0
    = (Ok all, w') /\
    length all = 200%nat /\
    map fst (requests (trace w'))
    = [GET_runners 100 1; GET_runners 100 2; GET_runners 100 3].
Proof.
  destruct (lister_stops_at_first_short_page
              (mock_octokit pages_100_100_0 token_abc deleted)
              pages_100_100_0 3 3 world0)
    as (w' & Hrun & Hreq & _ & Hlen).
  - intros tr page params. reflexivity.
  - lia.
  - intros q Hq. assert (q = 1 \/ q = 2)%nat as [-> | ->] by lia; vm_compute; lia.
  - vm_compute. lia.
  - exists (collect pages_100_100_0 1 3), w'.
    split; [exact Hrun|]. split.
    + rewrite Hlen; [reflexivity|].
      intros q Hq. assert (q = 1 \/ q = 2)%nat as [-> | ->] by lia; reflexivity.
    + rewrite Hreq. reflexivity.
Defined.

(** C2. Whatever list of runners the listing produced, [getRunner] returns
    the first runner of that list, in listing order, one of whose label
    entries (at any index of its [labels] array) is named exactly [label],
    and returns null when no listed runner has such an entry; the answer is
    the only one fitting that description. *)
Theorem getRunner_returns_first_with_label env fuel label w all w1 :
  getRunner_loop fuel (getOctokit env (githubToken (input env))) 1 []
    (logged [Log Info (get_runner_message label)] w) = (Ok all, w1) ->
  exists found w2,
    getRunner env fuel label w = (Ok found, w2) /\
    first_with_label label all found /\
    (forall other, first_with_label label all other -> other = found).
Proof.
  intros Hloop. rewrite getRunner_eq, Hloop.
  exists (found_runner label all), (logged (found_events label all) w1).
  split; [reflexivity|]. split; [apply found_runner_first|].
  intros other Hother.
  exact (first_with_label_unique label all _ _ Hother (found_runner_first label all)).
Qed.

Lemma getRunner_three_runners :
  exists w2,
    getRunner (mock_env (mock_octokit pages_three token_abc deleted)) 1 "x" world0
    = (Ok (Some r3), w2).
Proof.
  edestruct (getRunner_returns_first_with_label
               (mock_env (mock_octokit pages_three token_abc deleted))
               1 "x" world0 [r2; r3; r4])
    as (found & w2 & Hrun & _ & Huniq).
  - vm_compute. reflexivity.
  - exists w2. rewrite Hrun. f_equal. f_equal. symmetry. apply Huniq.
    apply (fwl_some "x" [r2] r3 [r4]).
    + constructor; [|constructor].
      intros (entry & Hin & Hname). simpl in Hin.
      destruct Hin as [<- | [<- | []]]; discriminate Hname.
    + exists (Label.mk "x"). split; [right; left|]; reflexivity.
Defined.

(** C3. No call of [getRunner] ever ends in an exception. Whenever the
    listing loop is interrupted by the error of a request, [getRunner]
    returns null; in particular a request that fails on page [failing],
    after any number of full pages, gives null. Null is also what a
    listing without the label gives, so the two cases look the same to the
    caller. *)
Theorem getRunner_swallows_listing_failure env pages failing err fuel label w :
  (forall w0 e w', getRunner env fuel label w0 <> (Throw e, w')) /\
  (forall e w1,
     getRunner_loop fuel (getOctokit env (githubToken (input env))) 1 []
       (logged [Log Info (get_runner_message label)] w) = (Throw e, w1) ->
     getRunner env fuel label w = (Ok None, w1)) /\
  (serves (getOctokit env (githubToken (input env))) pages ->
   (1 <= failing <= fuel)%nat ->
   (forall q, (1 <= q < failing)%nat -> is_full (pages q)) ->
   pages failing = inl err ->
   exists w',
     getRunner env fuel label w = (Ok None, w') /\
     requests (trace w')
     = (requests (trace w) ++ page_requests (githubContext w) 1 failing)%list) /\
  (forall all, Forall (fun r => ~ has_label label r) all ->
               found_runner label all = None).
Proof.
  split; [|split; [|split]].
  - intros w0 e w' Hrun. apply getRunner_frame in Hrun as [Hno _].
    by apply (Hno e).
  - intros e w1 Hloop. by rewrite getRunner_eq, Hloop.
  - intros Hserves [Hfailing Hfuel] Hfull Herr.
    destruct failing as [|k]; [lia|].
    destruct (getRunner_loop_pages_error _ pages Hserves k err fuel 1 []
                (logged [Log Info (get_runner_message label)] w))
      as (w' & Hrun & Hctx & Hreq).
    { lia. }
    { intros q Hq. apply Hfull. lia. }
    { done. }
    exists w'. rewrite getRunner_eq, Hrun. split; [reflexivity|].
    rewrite Hreq. cbn [logged trace githubContext].
    rewrite requests_app. cbn [requests omap request_of].
    by rewrite app_nil_r.
  - intros all Hnone. pose proof (found_runner_split label all) as Hsplit.
    destruct (found_runner label all) as [r|]; [|done].
    destruct Hsplit as (before & after & -> & _ & Hr).
    apply Forall_app in Hnone as [_ Hnone]. inversion Hnone; subst. done.
Qed.

Lemma getRunner_second_page_fails :
  exists w',
    getRunner (mock_env (mock_octokit pages_fail_second token_abc deleted)) 5 "x" world0
    = (Ok None, w') /\
    map fst (requests (trace w')) = [GET_runners 100 1; GET_runners 100 2].
Proof.
  destruct (getRunner_swallows_listing_failure
              (mock_env (mock_octokit pages_fail_second token_abc deleted))
              pages_fail_second 2 (RequestError 502 "Bad Gateway") 5 "x" world0)
    as (_ & _ & Hfails & _).
  destruct Hfails as (w' & Hrun & Hreq).
  - intros tr page params. reflexivity.
  - lia.
  - intros q Hq. assert (q = 1)%nat as -> by lia. vm_compute. lia.
  - reflexivity.
  - exists w'. split; [exact Hrun|]. rewrite Hreq. reflexivity.
Defined.

(** ** Properties of [getRegistrationToken] and [removeRunner] *)

Lemma getRegistrationToken_eq env w :
  getRegistrationToken env w =
  match getOctokit env (githubToken (input env)) (trace w)
          POST_registration_token (githubContext w) with
  | inr response =>
      (Ok (token (data response)),
       logged [Request POST_registration_token (githubContext w);
               token_received_event] w)
  | inl e =>
      (Throw e,
       logged [Request POST_registration_token (githubContext w);
               token_error_event] w)
  end.
Proof.
  unfold getRegistrationToken, try_catch, bind, config_githubContext, request.
  destruct (getOctokit _ _ _ _ _) as [e|response];
    unfold core_info, core_error, bind; rewrite emit_logged;
    unfold logged, ret, throw; cbn [trace githubContext];
    by rewrite <- app_assoc.
Qed.

Lemma removeRunner_eq env fuel w :
  removeRunner env fuel w =
  match getRunner env fuel (label (input env)) w with
  | (Ok None, w1) => (Ok tt, logged [not_found_event (label (input env))] w1)
  | (Ok (Some runner), w1) =>
      let params :=
        lodash.merge (githubContext w1) {[ "runner_id" := VNum (Runner.id runner) ]} in
      let sent := {| trace := (trace w1 ++ [Request DELETE_runner params])%list;
                     githubContext := params |} in
      match getOctokit env (githubToken (input env)) (trace w1)
              DELETE_runner params with
      | inr _ => (Ok tt, logged [removed_event (Runner.name runner)] sent)
      | inl e => (Throw e, logged [removal_error_event] sent)
      end
  | (Throw e, w1) => (Throw e, w1)
  | (OutOfFuel, w1) => (OutOfFuel, w1)
  end.
Proof.
  unfold removeRunner. unfold bind at 1.
  destruct (getRunner _ _ _ _) as [[[runner|]|e|] w1]; try reflexivity.
  unfold try_catch, bind, merge_githubContext, request. cbn [trace githubContext].
  by destruct (getOctokit _ _ _ _ _) as [e|response].
Qed.

Lemma merge_runner_id (context : Params) (n : Z) :
  lodash.merge context {[ "runner_id" := VNum n ]} = <[ "runner_id" := VNum n ]> context.
Proof. unfold lodash.merge. by rewrite insert_union_singleton_l. Qed.

Lemma listing_no_delete label e : is_listing label e = true -> is_delete e = false.
Proof. by destruct e as [[] ?|[] ?|]. Qed.

Lemma listing_no_post label e : is_listing label e = true -> is_post e = false.
Proof. by destruct e as [[] ?|[] ?|]. Qed.

Lemma listing_no_error label e : is_listing label e = true -> is_error_log e = false.
Proof. by destruct e as [[] ?|[] ?|]. Qed.

Lemma listing_no_timer label e : is_listing label e = true -> is_timer e = false.
Proof. by destruct e as [[] ?|[] ?|]. Qed.

Lemma listing_no_locate label e :
  is_listing label e = true -> is_locate label e = false.
Proof.
  destruct e as [[] m|[] ?|]; try done.
  unfold is_listing. by destruct (is_locate label (Log Info m)).
Qed.

Lemma is_locate_marker label :
  is_locate label (Log Info (get_runner_message label)) = true.
Proof. unfold is_locate, get_runner_message. apply String.eqb_refl. Qed.

(** C7. [getRegistrationToken] sends the POST request once. When it
    succeeds the token of the response data is returned and no error is
    logged; when it fails the error is logged exactly once and the same
    error is thrown to the caller, without another attempt. *)
Theorem getRegistrationToken_outcome env w :
  exists r evs,
    getRegistrationToken env w = (r, logged evs w) /\
    List.filter is_post evs = [Request POST_registration_token (githubContext w)] /\
    match getOctokit env (githubToken (input env)) (trace w)
            POST_registration_token (githubContext w) with
    | inr response =>
        r = Ok (token (data response)) /\ count_events is_error_log evs = 0%nat
    | inl e =>
        r = Throw e /\ count_events is_error_log evs = 1%nat
    end.
Proof.
  rewrite getRegistrationToken_eq.
  destruct (getOctokit _ _ _ _ _) as [e|response];
    eexists _, _; (split; [reflexivity|]); by split.
Qed.

(** C5. When the locator finds no runner for the configured label,
    [removeRunner] returns normally, and nothing it did was a DELETE
    request. *)
Theorem removeRunner_absent_is_noop env fuel w w1 :
  getRunner env fuel (label (input env)) w = (Ok None, w1) ->
  exists evs,
    removeRunner env fuel w = (Ok tt, logged evs w) /\
    count_events is_delete evs = 0%nat /\
    last evs = Some (not_found_event (label (input env))).
Proof.
  intros Hlocate. rewrite removeRunner_eq, Hlocate.
  apply getRunner_frame in Hlocate as (_ & evs & -> & Hevs).
  rewrite logged_logged. eexists; split; [reflexivity|]. split.
  - rewrite count_events_app.
    change (Log Info (get_runner_message (label (input env))) :: evs)
      with ([Log Info (get_runner_message (label (input env)))] ++ evs)%list.
    rewrite count_events_app.
    rewrite (count_events_none is_delete (is_listing (label (input env))) evs);
      [reflexivity | apply listing_no_delete | done].
  - by rewrite last_snoc.
Qed.

Lemma removeRunner_absent_scenario :
  exists evs,
    removeRunner (mock_env (mock_octokit pages_none token_abc deleted)) 1 world0
    = (Ok tt, logged evs world0) /\
    count_events is_delete evs = 0%nat.
Proof.
  edestruct (removeRunner_absent_is_noop
               (mock_env (mock_octokit pages_none token_abc deleted)) 1 world0)
    as (evs & Hrun & Hcount & _).
  - vm_compute. reflexivity.
  - exists evs. split; [exact Hrun | exact Hcount].
Defined.

(** C6. When the locator finds a runner, [removeRunner] sends exactly one
    DELETE request, whose [runner_id] parameter is that runner's id. If the
    request succeeds [removeRunner] returns normally; if it fails, the
    error is logged and the same error is thrown to the caller. *)
Theorem removeRunner_found_deletes_once env fuel w runner w1 :
  getRunner env fuel (label (input env)) w = (Ok (Some runner), w1) ->
  let params := <[ "runner_id" := VNum (Runner.id runner) ]> (githubContext w) in
  exists r evs,
    removeRunner env fuel w
    = (r, {| trace := (trace w ++ evs)%list; githubContext := params |}) /\
    List.filter is_delete evs = [Request DELETE_runner params] /\
    params !! "runner_id" = Some (VNum (Runner.id runner)) /\
    match getOctokit env (githubToken (input env)) (trace w1)
            DELETE_runner params with
    | inr _ => r = Ok tt /\ count_events is_error_log evs = 0%nat
    | inl e =>
        r = Throw e /\
        List.filter is_error_log evs = [removal_error_event] /\
        last evs = Some removal_error_event
    end.
Proof.
  intros Hlocate params. rewrite removeRunner_eq, Hlocate. cbn zeta.
  apply getRunner_frame in Hlocate as (_ & evs & -> & Hevs).
  rewrite merge_runner_id. cbn [logged githubContext trace]. fold params.
  set (marker := Log Info (get_runner_message (label (input env)))).
  pose proof (count_events_none is_delete _ evs (listing_no_delete _) Hevs) as Hdel.
  pose proof (count_events_none is_error_log _ evs (listing_no_error _) Hevs) as Herr.
  unfold count_events in Hdel, Herr.
  apply length_zero_iff_nil in Hdel. apply length_zero_iff_nil in Herr.
  destruct (getOctokit _ _ _ _ _) as [e|response].
  - exists (Throw e),
      (((marker :: evs) ++ [Request DELETE_runner params]) ++ [removal_error_event])%list.
    split. { by rewrite !app_assoc. }
    split. { rewrite !List.filter_app. cbn [List.filter is_delete marker]. by rewrite Hdel. }
    split. { apply lookup_insert_eq. }
    split; [done|]. split.
    { rewrite !List.filter_app. cbn [List.filter is_error_log marker]. by rewrite Herr. }
    { by rewrite last_snoc. }
  - exists (Ok tt),
      (((marker :: evs) ++ [Request DELETE_runner params])
         ++ [removed_event (Runner.name runner)])%list.
    split. { by rewrite !app_assoc. }
    split. { rewrite !List.filter_app. cbn [List.filter is_delete marker removed_event]. by rewrite Hdel. }
    split. { apply lookup_insert_eq. }
    split; [done|].
    unfold count_events. rewrite !List.filter_app.
    cbn [List.filter is_error_log marker removed_event]. by rewrite Herr.
Qed.

Lemma removeRunner_scenario :
  exists evs w',
    removeRunner (mock_env (mock_octokit pages_r1 token_abc deleted)) 1 world0
    = (Ok tt, w') /\
    trace w' = evs /\
    List.filter is_delete evs
    = [Request DELETE_runner (<[ "runner_id" := VNum 1 ]> (githubContext world0))].
Proof.
  edestruct (removeRunner_found_deletes_once
               (mock_env (mock_octokit pages_r1 token_abc deleted)) 1 world0 r1)
    as (r & evs & Hrun & Hdel & _ & Hr).
  - vm_compute. reflexivity.
  - simpl in Hr. destruct Hr as [-> _].
    eexists evs, _. split; [exact Hrun|]. split; [reflexivity|]. exact Hdel.
Defined.

Example token_abc_is_returned :
  fst (getRegistrationToken (mock_env (mock_octokit pages_none token_abc deleted)) world0)
  = Ok "abc".
Proof. reflexivity. Qed.

Example token_failure_is_logged_once :
  let run := getRegistrationToken
               (mock_env (mock_octokit pages_none token_forbidden deleted)) world0 in
  fst run = Throw (RequestError 403 "Forbidden") /\
  count_events is_error_log (trace (snd run)) = 1%nat /\
  count_events is_post (trace (snd run)) = 1%nat.
Proof. by vm_compute. Qed.

Example failed_delete_is_rethrown :
  let run := removeRunner (mock_env (mock_octokit pages_r1 token_abc delete_fails))
               1 world0 in
  fst run = Throw (RequestError 500 "Internal Server Error") /\
  count_events is_delete (trace (snd run)) = 1%nat /\
  last (trace (snd run)) = Some removal_error_event.
Proof. by vm_compute. Qed.

(** ** The waiter *)

Lemma timeout_message_text :
  timeout_message
  = "A timeout of 5 minutes is exceeded. Your AWS EC2 instance was not able to register itself in GitHub as a new self-hosted runner.".
Proof. reflexivity. Qed.

Lemma tick_eq env fuel label st w :
  tick env fuel label st w =
  match getRunner env fuel label w with
  | (Ok runner, w1) => bind (check_timeout st) (check_online runner) w1
  | (Throw e, w1) => (Throw e, w1)
  | (OutOfFuel, w1) => (OutOfFuel, w1)
  end.
Proof. reflexivity. Qed.

(** The two checks of the callback when the counter is within the limit. *)
Lemma checks_in_time runner st w :
  waitSeconds st <= timeoutMinutes * 60 ->
  is_online runner = false ->
  bind (check_timeout st) (check_online runner) w
  = (Ok (add_waitSeconds retryIntervalSeconds st), logged [checking_event] w).
Proof.
  intros Hin Hoff. unfold bind, check_timeout.
  destruct (Z.gtb_spec (waitSeconds st) (timeoutMinutes * 60)) as [Hgt|_]; [lia|].
  unfold ret, check_online. destruct runner as [r|]; [|done].
  simpl in Hoff. by rewrite Hoff.
Qed.

(** The two checks when the counter is over the limit and the runner is
    not online. *)
Lemma checks_timed_out runner st w :
  waitSeconds st > timeoutMinutes * 60 ->
  is_online runner = false ->
  bind (check_timeout st) (check_online runner) w
  = (Ok (add_waitSeconds retryIntervalSeconds
           (reject timeout_message (clearInterval st))),
     logged [registration_error_event; checking_event] w).
Proof.
  intros Hout Hoff. unfold bind, check_timeout.
  destruct (Z.gtb_spec (waitSeconds st) (timeoutMinutes * 60)) as [_|Hle]; [|lia].
  unfold core_error, bind. rewrite emit_logged. unfold ret, check_online.
  destruct runner as [r|]; simpl in Hoff; rewrite ?Hoff;
    unfold core_info, bind; by rewrite emit_logged, logged_logged.
Qed.

(** The two checks when the counter is over the limit and the runner is
    online: both branches run, in source order. *)
Lemma checks_timed_out_online r st w :
  waitSeconds st > timeoutMinutes * 60 ->
  Runner.status r = "online" ->
  bind (check_timeout st) (check_online (Some r)) w
  = (Ok (resolve (clearInterval (reject timeout_message (clearInterval st)))),
     logged [registration_error_event; registered_event (Runner.name r)] w).
Proof.
  intros Hout Hon. unfold bind, check_timeout.
  destruct (Z.gtb_spec (waitSeconds st) (timeoutMinutes * 60)) as [_|Hle]; [|lia].
  unfold core_error, bind. rewrite emit_logged. unfold ret, check_online.
  rewrite Hon. cbn [String.eqb Ascii.eqb Bool.eqb].
  unfold core_info, bind. by rewrite emit_logged, logged_logged.
Qed.

Lemma run_interval_S env n fuel label st w :
  run_interval env (S n) fuel label st w =
  match tick env fuel label st (logged [Timer (retryIntervalSeconds * 1000)] w) with
  | (Ok st', w') =>
      if interval st' then run_interval env n fuel label st' w' else (Ok st', w')
  | (Throw e, w') => (Throw e, w')
  | (OutOfFuel, w') => (OutOfFuel, w')
  end.
Proof.
  cbn [run_interval]. unfold bind at 1. unfold sleep. rewrite emit_logged.
  unfold bind at 1.
  destruct (tick _ _ _ _ _) as [[st'|e|] w']; try reflexivity.
  by destruct (interval st').
Qed.

Section NeverOnline.
Variables (env : Env) (fuel : nat) (label : string).
Hypothesis Hnever :
  forall w0, exists runner w1,
    getRunner env fuel label w0 = (Ok runner, w1) /\ is_online runner = false.

(** One callback run of a waiter that is still waiting. *)
Lemma tick_never_online seconds w :
  exists evs,
    tick env fuel label (pending seconds) w
    = (Ok (if seconds >? timeoutMinutes * 60
           then {| waitSeconds := seconds + retryIntervalSeconds;
                   interval := false;
                   promise := Rejected timeout_message |}
           else pending (seconds + retryIntervalSeconds)),
       logged evs w) /\
    count_events (is_locate label) evs = 1%nat /\
    count_events is_timer evs = 0%nat.
Proof.
  destruct (Hnever w) as (runner & w1 & Hlocate & Hoff).
  rewrite tick_eq, Hlocate.
  apply getRunner_frame in Hlocate as (_ & evs & -> & Hevs).
  pose proof (count_events_none (is_locate label) _ evs (listing_no_locate _) Hevs) as Hloc.
  pose proof (count_events_none is_timer _ evs (listing_no_timer _) Hevs) as Htim.
  destruct (Z.gtb_spec seconds (timeoutMinutes * 60)) as [Hgt|Hle].
  - rewrite checks_timed_out; [|simpl; lia|done].
    rewrite logged_logged. eexists; split; [reflexivity|].
    rewrite !count_events_app, !count_events_cons, is_locate_marker, Hloc, Htim.
    by split.
  - rewrite checks_in_time; [|simpl; lia|done].
    rewrite logged_logged. eexists; split; [reflexivity|].
    rewrite !count_events_app, !count_events_cons, is_locate_marker, Hloc, Htim.
    by split.
Qed.

(** With [m] callback runs to go before the counter is over the limit,
    the timer runs [S m] times and the last run rejects. *)
Lemma run_interval_never_online m :
  forall n w,
    (m < n)%nat ->
    exists evs,
      run_interval env n fuel label
        (pending (310 - 10 * Z.of_nat m)) w
      = (Ok {| waitSeconds := 320; interval := false;
               promise := Rejected timeout_message |},
         logged evs w) /\
      count_events (is_locate label) evs = S m /\
      count_events is_timer evs = S m.
Proof.
  induction m as [|m IH]; intros n w Hn; (destruct n as [|n]; [lia|]);
    rewrite run_interval_S.
  - destruct (tick_never_online (310 - 10 * Z.of_nat 0)
                (logged [Timer (retryIntervalSeconds * 1000)] w))
      as (evs & -> & Hloc & Htim).
    destruct (Z.gtb_spec (310 - 10 * Z.of_nat 0) (timeoutMinutes * 60)) as [_|Hle];
      [|unfold timeoutMinutes in Hle; lia].
    cbn [interval]. rewrite logged_logged. eexists; split; [reflexivity|].
    rewrite !count_events_app, Hloc, Htim. by split.
  - destruct (tick_never_online (310 - 10 * Z.of_nat (S m))
                (logged [Timer (retryIntervalSeconds * 1000)] w))
      as (evs & -> & Hloc & Htim).
    destruct (Z.gtb_spec (310 - 10 * Z.of_nat (S m)) (timeoutMinutes * 60)) as [Hgt|_];
      [unfold timeoutMinutes in Hgt; lia|].
    cbn [interval pending].
    replace (310 - 10 * Z.of_nat (S m) + retryIntervalSeconds)
      with (310 - 10 * Z.of_nat m) by (unfold retryIntervalSeconds; lia).
    destruct (IH n (logged evs (logged [Timer (retryIntervalSeconds * 1000)] w)))
      as (evs' & -> & Hloc' & Htim'); [lia|].
    rewrite !logged_logged. eexists; split; [reflexivity|].
    rewrite !count_events_app, Hloc, Htim, Hloc', Htim'. by split.
Qed.

(** With fewer periods than that, the promise is still pending when
    the periods are used up. *)
Lemma run_interval_still_pending m :
  forall n w,
    (n <= m)%nat ->
    exists w',
      run_interval env n fuel label (pending (310 - 10 * Z.of_nat m)) w
      = (OutOfFuel, w').
Proof.
  induction m as [|m IH]; intros n w Hn.
  - assert (n = 0)%nat as -> by lia. by eexists.
  - destruct n as [|n]; [by eexists|].
    rewrite run_interval_S.
    destruct (tick_never_online (310 - 10 * Z.of_nat (S m))
                (logged [Timer (retryIntervalSeconds * 1000)] w))
      as (evs & -> & _).
    destruct (Z.gtb_spec (310 - 10 * Z.of_nat (S m)) (timeoutMinutes * 60)) as [Hgt|_];
      [unfold timeoutMinutes in Hgt; lia|].
    cbn [interval pending].
    replace (310 - 10 * Z.of_nat (S m) + retryIntervalSeconds)
      with (310 - 10 * Z.of_nat m) by (unfold retryIntervalSeconds; lia).
    apply IH. lia.
Qed.

End NeverOnline.

Lemma waitForRunnerRegistered_eq env n fuel label w :
  waitForRunnerRegistered env n fuel label w =
  match run_interval env n fuel label (pending 0) (logged quiet_period_events w) with
  | (Ok st, w') => await_promise st w'
  | (Throw e, w') => (Throw e, w')
  | (OutOfFuel, w') => (OutOfFuel, w')
  end.
Proof.
  unfold waitForRunnerRegistered, bind, core_info, sleep.
  rewrite !emit_logged, !logged_logged. reflexivity.
Qed.

(** Against a remote without runners the locator finds nothing. *)
Lemma getRunner_env_none fuel label w0 :
  exists w1, getRunner env_none (S fuel) label w0 = (Ok None, w1).
Proof.
  rewrite getRunner_eq, getRunner_loop_S. cbn. by eexists.
Qed.

(** ** Properties of [waitForRunnerRegistered] *)

(** C1, as amended. Assume that the runs of the timer callback follow one
    another (every locator call returns before the next 10 s period
    elapses, the serialised schedule of [run_interval]) and that every call
    of the locator returns, none of them with an online runner. Then the
    waiter rejects on the 32nd run of the timer callback, the first one
    that starts with the counter above 300 seconds: with 31 or fewer timer
    periods the promise is still pending, with 32 or more it is rejected
    after exactly 32 calls of the locator (one quiet period and 32 timer
    periods), a callback run rejects a pending promise exactly when its
    counter is above 300, and the rejection message names the timeout of 5
    minutes. *)
Theorem wait_never_online_rejects_on_poll_32 env fuel label w :
  (forall w0, exists runner w1,
      getRunner env fuel label w0 = (Ok runner, w1) /\ is_online runner = false) ->
  (forall n, (32 <= n)%nat ->
     exists evs,
       waitForRunnerRegistered env n fuel label w
       = (Throw (Reason timeout_message), logged evs w) /\
       count_events (is_locate label) evs = 32%nat /\
       count_events is_timer evs = 33%nat) /\
  (forall n, (n <= 31)%nat ->
     exists w', waitForRunnerRegistered env n fuel label w = (OutOfFuel, w')) /\
  (forall seconds w0,
     exists st' w1,
       tick env fuel label (pending seconds) w0 = (Ok st', w1) /\
       (promise st' = Rejected timeout_message <-> seconds > 300) /\
       (promise st' = Pending <-> seconds <= 300)) /\
  timeout_message
  = "A timeout of 5 minutes is exceeded. Your AWS EC2 instance was not able to register itself in GitHub as a new self-hosted runner.".
Proof.
  intros Hnever. split; [|split; [|split; [|reflexivity]]].
  - intros n Hn. rewrite waitForRunnerRegistered_eq.
    destruct (run_interval_never_online env fuel label Hnever 31 n
                (logged quiet_period_events w)) as (evs & Hrun & Hloc & Htim); [lia|].
    change (310 - 10 * Z.of_nat 31) with 0 in Hrun. rewrite Hrun.
    unfold await_promise, throw. cbn [promise]. rewrite logged_logged.
    eexists; split; [reflexivity|].
    rewrite !count_events_app, Hloc, Htim. by split.
  - intros n Hn. rewrite waitForRunnerRegistered_eq.
    destruct (run_interval_still_pending env fuel label Hnever 31 n
                (logged quiet_period_events w)) as (w' & Hrun); [lia|].
    change (310 - 10 * Z.of_nat 31) with 0 in Hrun. rewrite Hrun. by eexists.
  - intros seconds w0.
    destruct (tick_never_online env fuel label Hnever seconds w0) as (evs & -> & _).
    eexists _, _; split; [reflexivity|].
    destruct (Z.gtb_spec seconds (timeoutMinutes * 60)) as [Hgt|Hle];
      unfold timeoutMinutes in *; cbn [promise pending]; split; split;
      intros H; try done; try lia.
Qed.

Lemma wait_never_online_scenario :
  exists evs,
    waitForRunnerRegistered env_none 32 1 "x" world0
    = (Throw (Reason timeout_message), logged evs world0) /\
    count_events (is_locate "x") evs = 32%nat.
Proof.
  destruct (wait_never_online_rejects_on_poll_32 env_none 1 "x" world0)
    as (Hrun & _).
  - intros w0. destruct (getRunner_env_none 0 "x" w0) as (w1 & Hlocate).
    exists None, w1. split; [exact Hlocate | reflexivity].
  - destruct (Hrun 32%nat) as (evs & Hwait & Hloc & _); [lia|].
    exists evs. split; [exact Hwait | exact Hloc].
Defined.

(** C1 with the bound 300/10 + 1 = 31: against a remote that never lists
    any runner the waiter rejects, but only after 32 calls of the locator,
    so the bound is exceeded. *)
Lemma wait_never_online_exceeds_31_polls :
  (forall w0, exists w1, getRunner env_none 1 "x" w0 = (Ok None, w1)) /\
  exists w',
    waitForRunnerRegistered env_none 32 1 "x" world0
    = (Throw (Reason timeout_message), w') /\
    ~ (count_events (is_locate "x") (trace w') <= 300 / 10 + 1)%nat.
Proof.
  split.
  - intros w0. apply getRunner_env_none.
  - eexists. split; [vm_compute; reflexivity|]. vm_compute. lia.
Qed.

(** Whatever the locator found, the two checks only log. *)
Lemma checks_only_log label runner st w :
  exists st' evs,
    bind (check_timeout st) (check_online runner) w = (Ok st', logged evs w) /\
    requests evs = [] /\
    count_events (is_locate label) evs = 0%nat /\
    (waitSeconds st > timeoutMinutes * 60 -> promise st = Pending ->
     head evs = Some registration_error_event /\
     promise st' = Rejected timeout_message /\
     interval st' = false).
Proof.
  unfold bind, check_timeout.
  destruct (Z.gtb_spec (waitSeconds st) (timeoutMinutes * 60)) as [Hgt|Hle].
  - unfold core_error, bind. rewrite emit_logged. unfold ret, check_online.
    destruct runner as [r|]; [destruct (String.eqb (Runner.status r) "online")|];
      unfold core_info, bind; rewrite emit_logged, logged_logged;
      eexists _, _; (split; [reflexivity|]); (split; [done|]); (split; [done|]);
      intros _ Hpending; (split; [done|]);
      unfold resolve, reject, clearInterval, add_waitSeconds;
      cbn [promise interval]; rewrite Hpending; by cbn [promise interval].
  - unfold ret, check_online.
    destruct runner as [r|]; [destruct (String.eqb (Runner.status r) "online")|];
      unfold core_info, bind; rewrite emit_logged;
      eexists _, _; (split; [reflexivity|]); (split; [done|]); (split; [done|]);
      intros Hgt; lia.
Qed.

(** A locator call that returns has logged its marker line and sent the
    request for page 1 before anything else. *)
Lemma getRunner_starts env fuel label w runner w1 :
  getRunner env fuel label w = (Ok runner, w1) ->
  exists evs,
    w1 = logged (Log Info (get_runner_message label)
                 :: Log Info (sending_message 1)
                 :: Request (GET_runners PAGE_SIZE 1) (githubContext w)
                 :: evs) w.
Proof.
  rewrite getRunner_eq. destruct fuel as [|fuel]; [done|].
  rewrite getRunner_loop_S. cbn [logged trace githubContext].
  destruct (getOctokit _ _ _ _ _) as [e|response].
  - intros Hrun. inversion Hrun; subst. rewrite logged_logged. by exists [].
  - cbn zeta. destruct (_ <? _)%nat.
    + intros Hrun. inversion Hrun; subst. rewrite !logged_logged.
      eexists. reflexivity.
    + destruct (getRunner_loop _ _ _ _ _) as [[all|e|] w2] eqn:Hloop;
        apply (getRunner_loop_frame label) in Hloop as (evs & -> & _);
        intros Hrun; inversion Hrun; subst; rewrite !logged_logged;
        eexists; reflexivity.
Qed.

(** C9. Inside one run of the timer callback the timeout test comes before
    the online test. When a run starts with the counter above the limit
    while the promise is pending, and the locator returns a runner whose
    status is online, both branches execute in that order (the error line
    is logged before the success line), the promise ends up rejected with
    the timeout message, the timer is cleared, and awaiting the promise
    throws the timeout message. *)
Theorem timeout_checked_before_online env n fuel label st w runner w1 :
  getRunner env fuel label (logged [period_event] w) = (Ok (Some runner), w1) ->
  Runner.status runner = "online" ->
  waitSeconds st > timeoutMinutes * 60 ->
  promise st = Pending ->
  exists st',
    tick env fuel label st (logged [period_event] w)
    = (Ok st', logged [registration_error_event;
                       registered_event (Runner.name runner)] w1) /\
    promise st' = Rejected timeout_message /\
    promise st' <> Resolved /\
    interval st' = false /\
    run_interval env (S n) fuel label st w
    = (Ok st', logged [registration_error_event;
                       registered_event (Runner.name runner)] w1) /\
    forall w', await_promise st' w' = (Throw (Reason timeout_message), w').
Proof.
  intros Hlocate Honline Hover Hpending.
  assert (Htick : tick env fuel label st (logged [period_event] w)
    = (Ok (resolve (clearInterval (reject timeout_message (clearInterval st)))),
       logged [registration_error_event; registered_event (Runner.name runner)] w1)).
  { rewrite tick_eq, Hlocate. by apply checks_timed_out_online. }
  assert (Hpromise : promise (resolve (clearInterval
            (reject timeout_message (clearInterval st)))) = Rejected timeout_message).
  { unfold resolve, reject, clearInterval. cbn [promise]. rewrite Hpending. done. }
  assert (Hinterval : interval (resolve (clearInterval
            (reject timeout_message (clearInterval st)))) = false).
  { unfold resolve, reject, clearInterval. cbn [promise]. rewrite Hpending. done. }
  eexists. split; [exact Htick|]. split; [exact Hpromise|].
  split; [by rewrite Hpromise|]. split; [exact Hinterval|]. split.
  - rewrite run_interval_S. fold period_event. rewrite Htick, Hinterval. reflexivity.
  - intros w'. unfold await_promise. by rewrite Hpromise.
Qed.

Lemma late_runner_poll_32 :
  exists st' w2,
    tick (mock_env late_octokit) 1 "x" (pending 310) world_before_poll_32
    = (Ok st', w2) /\
    promise st' = Rejected timeout_message.
Proof.
  edestruct (timeout_checked_before_online (mock_env late_octokit) 0 1 "x"
               (pending 310)
               (snd (waitForRunnerRegistered (mock_env late_octokit) 31 1 "x" world0))
               (Runner.mk 7 "late" "online" [Label.mk "x"]))
    as (st' & Htick & Hpromise & _).
  - vm_compute. reflexivity.
  - reflexivity.
  - vm_compute. reflexivity.
  - reflexivity.
  - eexists st', _. split; [exact Htick | exact Hpromise].
Defined.

(** The whole wait for the late runner: it is online at the 32nd poll and
    the wait still ends in the timeout. *)
Example late_runner_times_out :
  fst (waitForRunnerRegistered (mock_env late_octokit) 32 1 "x" world0)
  = Throw (Reason timeout_message).
Proof. vm_compute. reflexivity. Qed.

(** C10. Every run of the timer callback calls the locator first: the
    locator's marker line and its request for page 1 are in the trace
    before anything the two checks log, the checks send no request and call
    no locator themselves, and when the run starts with the counter above
    the limit the first thing after the locator call is the error line of
    the timeout branch, with the promise rejected whatever the locator
    returned. *)
Theorem locate_precedes_timeout_check env fuel label st w runner w1 :
  getRunner env fuel label w = (Ok runner, w1) ->
  (exists evs,
     w1 = logged (Log Info (get_runner_message label)
                  :: Log Info (sending_message 1)
                  :: Request (GET_runners PAGE_SIZE 1) (githubContext w)
                  :: evs) w) /\
  exists st' evs2,
    tick env fuel label st w = (Ok st', logged evs2 w1) /\
    requests evs2 = [] /\
    count_events (is_locate label) evs2 = 0%nat /\
    (waitSeconds st > timeoutMinutes * 60 -> promise st = Pending ->
     head evs2 = Some registration_error_event /\
     promise st' = Rejected timeout_message /\
     interval st' = false).
Proof.
  intros Hlocate. split; [by apply getRunner_starts in Hlocate|].
  rewrite tick_eq, Hlocate. apply checks_only_log.
Qed.

Lemma final_poll_before_rejection :
  exists st' w2,
    tick env_online 1 "x" (pending 310) world0 = (Ok st', w2) /\
    map fst (requests (trace w2)) = [GET_runners 100 1] /\
    promise st' = Rejected timeout_message.
Proof.
  edestruct (locate_precedes_timeout_check env_online 1 "x" (pending 310) world0)
    as ((evs & Hw1) & st' & evs2 & Htick & Hreq & _ & Hout).
  - vm_compute. reflexivity.
  - destruct Hout as (_ & Hpromise & _); [vm_compute; reflexivity | reflexivity |].
    eexists st', _. split; [exact Htick|]. split; [|exact Hpromise].
    cbn [logged trace]. rewrite requests_app, Hreq. vm_compute. reflexivity.
Defined.

(** ** The shared repository context *)

Lemma getRunner_context env fuel label w r w' :
  getRunner env fuel label w = (r, w') -> githubContext w' = githubContext w.
Proof.
  intros Hrun. by apply getRunner_frame in Hrun as (_ & evs & -> & _).
Qed.

Lemma getRegistrationToken_context env w :
  githubContext (snd (getRegistrationToken env w)) = githubContext w.
Proof.
  rewrite getRegistrationToken_eq. by destruct (getOctokit _ _ _ _ _).
Qed.

Lemma tick_context env fuel label st w r w' :
  tick env fuel label st w = (r, w') -> githubContext w' = githubContext w.
Proof.
  rewrite tick_eq.
  destruct (getRunner _ _ _ _) as [[runner|e|] w1] eqn:Hlocate;
    apply getRunner_context in Hlocate.
  - destruct (checks_only_log label runner st w1) as (st' & evs & -> & _).
    intros Hrun. inversion Hrun; subst. done.
  - intros Hrun. inversion Hrun; subst. done.
  - intros Hrun. inversion Hrun; subst. done.
Qed.

Lemma run_interval_context env n fuel label :
  forall st w r w',
    run_interval env n fuel label st w = (r, w') ->
    githubContext w' = githubContext w.
Proof.
  induction n as [|n IH]; intros st w r w'.
  - intros Hrun. inversion Hrun; subst. done.
  - rewrite run_interval_S.
    destruct (tick _ _ _ _ _) as [[st'|e|] w1] eqn:Htick;
      apply tick_context in Htick; cbn [logged githubContext] in Htick.
    + destruct (interval st').
      * intros Hrun. apply IH in Hrun. congruence.
      * intros Hrun. inversion Hrun; subst. done.
    + intros Hrun. inversion Hrun; subst. done.
    + intros Hrun. inversion Hrun; subst. done.
Qed.

Lemma waitForRunnerRegistered_context env n fuel label w :
  githubContext (snd (waitForRunnerRegistered env n fuel label w)) = githubContext w.
Proof.
  rewrite waitForRunnerRegistered_eq.
  destruct (run_interval _ _ _ _ _ _) as [[st|e|] w1] eqn:Hrun;
    apply run_interval_context in Hrun; cbn [logged githubContext] in Hrun;
    try done.
  unfold await_promise. by destruct (promise st).
Qed.

(** [removeRunner] leaves the context as it was when no runner is found,
    and otherwise stores the found runner's id in it under [runner_id];
    all other keys keep their values. *)
Lemma removeRunner_context env fuel w :
  githubContext (snd (removeRunner env fuel w)) = githubContext w \/
  exists runner,
    fst (getRunner env fuel (label (input env)) w) = Ok (Some runner) /\
    githubContext (snd (removeRunner env fuel w))
    = <[ "runner_id" := VNum (Runner.id runner) ]> (githubContext w).
Proof.
  rewrite removeRunner_eq.
  destruct (getRunner _ _ _ _) as [[[runner|]|e|] w1] eqn:Hlocate;
    apply getRunner_context in Hlocate; try (by left).
  right. exists runner. split; [done|]. cbn zeta.
  rewrite merge_runner_id, Hlocate. by destruct (getOctokit _ _ _ _ _).
Qed.

Lemma removeRunner_other_keys env fuel w key :
  key <> "runner_id" ->
  githubContext (snd (removeRunner env fuel w)) !! key = githubContext w !! key.
Proof.
  intros Hkey.
  destruct (removeRunner_context env fuel w) as [-> | (runner & _ & ->)]; [done|].
  by rewrite lookup_insert_ne.
Qed.

(** C8. [getRegistrationToken] and [waitForRunnerRegistered] leave the
    shared context as it was, and [removeRunner] keeps its [owner] and
    [repo] fields, but [removeRunner] does change the key set: in the
    scenario with one runner labelled x and id 1, the shared context has no
    [runner_id] key before the call and holds [runner_id = 1] after it. *)
Theorem removeRunner_adds_runner_id_to_context :
  exists w',
    removeRunner (mock_env (mock_octokit pages_r1 token_abc deleted)) 1 world0
    = (Ok tt, w') /\
    githubContext world0 !! "runner_id" = None /\
    githubContext w' !! "runner_id" = Some (VNum 1) /\
    githubContext w' !! "owner" = githubContext world0 !! "owner" /\
    githubContext w' !! "repo" = githubContext world0 !! "repo" /\
    dom (githubContext w') <> dom (githubContext world0).
Proof.
  set (env := mock_env (mock_octokit pages_r1 token_abc deleted)).
  assert (Hres : fst (removeRunner env 1 world0) = Ok tt) by (vm_compute; reflexivity).
  assert (Hnone : githubContext world0 !! "runner_id" = None) by (vm_compute; reflexivity).
  assert (Hctx : githubContext (snd (removeRunner env 1 world0))
                 = <[ "runner_id" := VNum 1 ]> (githubContext world0)).
  { destruct (removeRunner_context env 1 world0) as [Hsame | (runner & Hfound & Hctx)].
    - apply (f_equal (fun m : Params => m !! "runner_id")) in Hsame.
      vm_compute in Hsame. discriminate Hsame.
    - vm_compute in Hfound. inversion Hfound; subst runner. exact Hctx. }
  exists (snd (removeRunner env 1 world0)). split.
  { rewrite <- Hres. by destruct (removeRunner env 1 world0). }
  rewrite Hctx. split; [exact Hnone|].
  split; [apply lookup_insert_eq|].
  split; [by apply lookup_insert_ne|]. split; [by apply lookup_insert_ne|].
  intros Hdom.
  assert (Hin : "runner_id" ∈ dom (<[ "runner_id" := VNum 1 ]> (githubContext world0))).
  { apply elem_of_dom. rewrite lookup_insert_eq. by eexists. }
  rewrite Hdom in Hin. apply elem_of_dom in Hin as [v Hv]. congruence.
Qed.

(** The stored id travels with every later request: a listing sent after
    the removal carries [runner_id] among its parameters. *)
Example runner_id_leaks_into_later_requests :
  let env := mock_env (mock_octokit pages_r1 token_abc deleted) in
  let after_removal := snd (removeRunner env 1 world0) in
  let later := snd (getRunner env 1 "x" after_removal) in
  (snd <$> last (requests (trace later))) ≫= (fun params => params !! "runner_id")
  = Some (VNum 1).
Proof. by vm_compute. Qed.

(** * Further properties *)

(** ** Effects of [getRunner] *)

(** X1. For every outcome, [getRunner] leaves the shared context as it
    was, logs its marker line exactly once, and apart from that only logs
    at info level and sends listing requests: no error line (also when a
    request fails), no DELETE, no POST, no timer. *)
Theorem getRunner_effects env fuel label w :
  exists r evs,
    getRunner env fuel label w = (r, logged evs w) /\
    count_events (is_locate label) evs = 1%nat /\
    count_events is_error_log evs = 0%nat /\
    count_events is_delete evs = 0%nat /\
    count_events is_post evs = 0%nat /\
    count_events is_timer evs = 0%nat.
Proof.
  destruct (getRunner env fuel label w) as [r w'] eqn:Hrun.
  apply getRunner_frame in Hrun as (_ & evs & -> & Hevs).
  exists r, (Log Info (get_runner_message label) :: evs).
  split; [reflexivity|].
  rewrite !count_events_cons, is_locate_marker.
  rewrite (count_events_none (is_locate label) _ evs (listing_no_locate label) Hevs).
  rewrite (count_events_none is_error_log _ evs (listing_no_error label) Hevs).
  rewrite (count_events_none is_delete _ evs (listing_no_delete label) Hevs).
  rewrite (count_events_none is_post _ evs (listing_no_post label) Hevs).
  rewrite (count_events_none is_timer _ evs (listing_no_timer label) Hevs).
  by repeat split.
Qed.

(** X2. The listing has no upper bound on the number of pages: against a
    remote whose every page is full the loop never ends. Whatever bound is
    put on its rounds, it uses all of them, having requested the pages
    [1 .. fuel] in order, and [getRunner] does not return. *)
Theorem listing_of_full_pages_never_ends env pages fuel label w :
  serves (getOctokit env (githubToken (input env))) pages ->
  (forall q, (1 <= q)%nat -> is_full (pages q)) ->
  (exists w',
     getRunner_loop fuel (getOctokit env (githubToken (input env))) 1 [] w
     = (OutOfFuel, w') /\
     requests (trace w')
     = (requests (trace w) ++ page_requests (githubContext w) 1 fuel)%list) /\
  fst (getRunner env fuel label w) = OutOfFuel.
Proof.
  intros Hserves Hfull.
  assert (Hloop : forall fuel page acc w0,
    (1 <= page)%nat ->
    exists w',
      getRunner_loop fuel (getOctokit env (githubToken (input env))) page acc w0
      = (OutOfFuel, w') /\
      githubContext w' = githubContext w0 /\
      requests (trace w')
      = (requests (trace w0) ++ page_requests (githubContext w0) page fuel)%list).
  { clear fuel w. induction fuel as [|fuel IH]; intros page acc w0 Hpage.
    - exists w0. split; [reflexivity|]. split; [done|].
      unfold page_requests. simpl. by rewrite app_nil_r.
    - destruct (getRunner_loop_full _ pages Hserves fuel page acc w0 (Hfull page Hpage))
        as (w1 & -> & Hctx & Hreq).
      destruct (IH (S page) (acc ++ page_runners pages page)%list w1) as
        (w' & -> & Hctx' & Hreq'); [lia|].
      exists w'. split; [reflexivity|]. split; [congruence|].
      rewrite Hreq', Hreq, Hctx, (page_requests_S _ page fuel), <- app_assoc.
      reflexivity. }
  split.
  - destruct (Hloop fuel 1%nat [] w) as (w' & Hrun & _ & Hreq); [lia|]. eauto.
  - rewrite getRunner_eq.
    destruct (Hloop fuel 1%nat [] (logged [Log Info (get_runner_message label)] w))
      as (w' & -> & _); [lia|]. reflexivity.
Qed.

Lemma listing_of_full_pages_scenario :
  fst (getRunner (mock_env (mock_octokit pages_all_full token_abc deleted)) 7 "x" world0)
  = OutOfFuel.
Proof.
  destruct (listing_of_full_pages_never_ends
              (mock_env (mock_octokit pages_all_full token_abc deleted))
              pages_all_full 7 "x" world0) as (_ & Hrun).
  - intros tr page params. reflexivity.
  - intros q _. vm_compute. lia.
  - exact Hrun.
Defined.

(** ** Effects of [removeRunner] and how it composes *)

(** X3. For every outcome, [removeRunner] calls the locator exactly once,
    sends at most one DELETE request, no POST request and waits for no
    timer. It throws only after it has sent its DELETE request and logged
    one error line; when it does not throw it has logged no error line. *)
Theorem removeRunner_effects env fuel w :
  exists r evs w',
    removeRunner env fuel w = (r, w') /\
    trace w' = (trace w ++ evs)%list /\
    count_events (is_locate (label (input env))) evs = 1%nat /\
    (count_events is_delete evs <= 1)%nat /\
    count_events is_post evs = 0%nat /\
    count_events is_timer evs = 0%nat /\
    (forall e, r = Throw e ->
       count_events is_delete evs = 1%nat /\ count_events is_error_log evs = 1%nat) /\
    ((forall e, r <> Throw e) -> count_events is_error_log evs = 0%nat).
Proof.
  rewrite removeRunner_eq.
  destruct (getRunner env fuel (label (input env)) w) as [r0 w1] eqn:Hlocate.
  pose proof Hlocate as Hframe.
  apply getRunner_frame in Hframe as (Hno & evs & -> & Hevs).
  set (marker := Log Info (get_runner_message (label (input env)))).
  assert (Hloc : count_events (is_locate (label (input env))) (marker :: evs) = 1%nat).
  { rewrite count_events_cons. unfold marker. rewrite is_locate_marker.
    by rewrite (count_events_none _ _ evs (listing_no_locate _) Hevs). }
  assert (Hdel : count_events is_delete (marker :: evs) = 0%nat).
  { rewrite count_events_cons.
    by rewrite (count_events_none _ _ evs (listing_no_delete _) Hevs). }
  assert (Hpost : count_events is_post (marker :: evs) = 0%nat).
  { rewrite count_events_cons.
    by rewrite (count_events_none _ _ evs (listing_no_post _) Hevs). }
  assert (Htim : count_events is_timer (marker :: evs) = 0%nat).
  { rewrite count_events_cons.
    by rewrite (count_events_none _ _ evs (listing_no_timer _) Hevs). }
  assert (Herr : count_events is_error_log (marker :: evs) = 0%nat).
  { rewrite count_events_cons.
    by rewrite (count_events_none _ _ evs (listing_no_error _) Hevs). }
  destruct r0 as [[runner|]|e|].
  - cbn zeta. cbn [logged trace githubContext].
    destruct (getOctokit _ _ _ _ _) as [e|response].
    + eexists (Throw e),
        ((marker :: evs) ++ [Request DELETE_runner _; removal_error_event])%list, _.
      split; [reflexivity|]. cbn [logged trace]. split.
      { by rewrite <- !app_assoc. }
      rewrite !count_events_app, Hloc, Hdel, Hpost, Htim, Herr.
      repeat split; try done. intros Hnot. by destruct (Hnot e).
    + eexists (Ok tt),
        ((marker :: evs) ++ [Request DELETE_runner _;
                             removed_event (Runner.name runner)])%list, _.
      split; [reflexivity|]. cbn [logged trace]. split.
      { by rewrite <- !app_assoc. }
      rewrite !count_events_app, Hloc, Hdel, Hpost, Htim, Herr.
      repeat split; try done.
  - eexists (Ok tt),
      ((marker :: evs) ++ [not_found_event (label (input env))])%list, _.
    split; [reflexivity|]. cbn [logged trace]. split.
    { by rewrite <- !app_assoc. }
    rewrite !count_events_app, Hloc, Hdel, Hpost, Htim, Herr.
    repeat split; try done. cbn. lia.
  - by destruct (Hno e).
  - eexists OutOfFuel, (marker :: evs), _.
    split; [reflexivity|]. cbn [logged trace]. split; [done|].
    rewrite Hloc, Hdel, Hpost, Htim, Herr. repeat split; try done. lia.
Qed.

(** X4. A listing request that fails during teardown is taken for "no
    such runner": [removeRunner] returns normally, sends no DELETE
    request, logs nothing at error level and ends with the line saying the
    removal is skipped. *)
Theorem removeRunner_skips_when_listing_fails env pages failing err fuel w :
  serves (getOctokit env (githubToken (input env))) pages ->
  (1 <= failing <= fuel)%nat ->
  (forall q, (1 <= q < failing)%nat -> is_full (pages q)) ->
  pages failing = inl err ->
  exists evs,
    removeRunner env fuel w = (Ok tt, logged evs w) /\
    count_events is_delete evs = 0%nat /\
    count_events is_error_log evs = 0%nat /\
    last evs = Some (not_found_event (label (input env))).
Proof.
  intros Hserves [Hfailing Hfuel] Hfull Herr.
  destruct failing as [|k]; [lia|].
  destruct (getRunner_loop_pages_error _ pages Hserves k err fuel 1 []
              (logged [Log Info (get_runner_message (label (input env)))] w))
    as (w1 & Hloop & _).
  { lia. }
  { intros q Hq. apply Hfull. lia. }
  { done. }
  assert (Hlocate : getRunner env fuel (label (input env)) w = (Ok None, w1)).
  { by rewrite getRunner_eq, Hloop. }
  rewrite removeRunner_eq, Hlocate.
  apply getRunner_frame in Hlocate as (_ & evs & -> & Hevs).
  rewrite logged_logged. eexists; split; [reflexivity|].
  rewrite !count_events_app, !count_events_cons.
  rewrite (count_events_none _ _ evs (listing_no_delete _) Hevs).
  rewrite (count_events_none _ _ evs (listing_no_error _) Hevs).
  repeat split; try done. by rewrite last_snoc.
Qed.

Lemma removeRunner_unauthorized_scenario :
  exists evs,
    removeRunner env_unauthorized 1 world0 = (Ok tt, logged evs world0) /\
    count_events is_delete evs = 0%nat /\
    count_events is_error_log evs = 0%nat.
Proof.
  destruct (removeRunner_skips_when_listing_fails env_unauthorized
              pages_unauthorized 1 (RequestError 401 "Bad credentials") 1 world0)
    as (evs & Hrun & Hdel & Herr & _).
  - intros tr page params. reflexivity.
  - lia.
  - intros q Hq. lia.
  - reflexivity.
  - exists evs. by repeat split.
Defined.

(** X5. Requests carry the shared context as it is when they are sent.
    Once [removeRunner] has found a runner, the id it stored travels on: a
    later [getRegistrationToken] sends its POST request with that runner's
    id under [runner_id], next to the unchanged other keys. *)
Theorem token_request_after_removal_carries_runner_id env fuel w runner w1 :
  getRunner env fuel (label (input env)) w = (Ok (Some runner), w1) ->
  let after_removal := snd (removeRunner env fuel w) in
  exists r evs params,
    getRegistrationToken env after_removal = (r, logged evs after_removal) /\
    List.filter is_post evs = [Request POST_registration_token params] /\
    params !! "runner_id" = Some (VNum (Runner.id runner)) /\
    (forall key, key <> "runner_id" -> params !! key = githubContext w !! key).
Proof.
  intros Hlocate after_removal.
  assert (Hctx : githubContext after_removal
                 = <[ "runner_id" := VNum (Runner.id runner) ]> (githubContext w)).
  { unfold after_removal. rewrite removeRunner_eq, Hlocate. cbn zeta.
    rewrite merge_runner_id.
    apply getRunner_context in Hlocate. rewrite Hlocate.
    by destruct (getOctokit _ _ _ _ _). }
  rewrite getRegistrationToken_eq.
  destruct (getOctokit _ _ _ _ _) as [e|response];
    eexists _, _, (githubContext after_removal);
    (split; [reflexivity|]); (split; [done|]); rewrite Hctx;
    (split; [apply lookup_insert_eq|]);
    intros key Hkey; by apply lookup_insert_ne.
Qed.

Lemma token_request_after_removal_scenario :
  exists r evs params,
    getRegistrationToken (mock_env (mock_octokit pages_r1 token_abc deleted))
      (snd (removeRunner (mock_env (mock_octokit pages_r1 token_abc deleted)) 1 world0))
    = (r, logged evs
            (snd (removeRunner (mock_env (mock_octokit pages_r1 token_abc deleted))
                    1 world0))) /\
    List.filter is_post evs = [Request POST_registration_token params] /\
    params !! "runner_id" = Some (VNum 1).
Proof.
  edestruct (token_request_after_removal_carries_runner_id
               (mock_env (mock_octokit pages_r1 token_abc deleted)) 1 world0 r1)
    as (r & evs & params & Hrun & Hpost & Hid & _).
  - vm_compute. reflexivity.
  - exists r, evs, params. split; [exact Hrun|]. split; [exact Hpost | exact Hid].
Defined.

(** ** The course of a wait *)

Lemma timer_ms_app tr1 tr2 : timer_ms (tr1 ++ tr2) = timer_ms tr1 + timer_ms tr2.
Proof.
  unfold timer_ms. induction tr1 as [|e tr1 IH]; simpl; [done|].
  destruct e; lia.
Qed.

Lemma listing_timer_ms label evs :
  Forall (fun e => is_listing label e = true) evs -> timer_ms evs = 0.
Proof.
  induction 1 as [|e evs He _ IH]; [done|].
  change (e :: evs) with ([e] ++ evs)%list. rewrite timer_ms_app, IH.
  by destruct e as [[] ?|[] ?|].
Qed.

(** What a locator call that returns contributes to the counts. *)
Lemma getRunner_counts env fuel label w r w1 :
  getRunner env fuel label w = (r, w1) ->
  exists evs,
    w1 = logged evs w /\
    count_events (is_locate label) evs = 1%nat /\
    count_events is_error_log evs = 0%nat /\
    timer_ms evs = 0.
Proof.
  intros Hrun. apply getRunner_frame in Hrun as (_ & evs & -> & Hevs).
  eexists; split; [reflexivity|].
  rewrite !count_events_cons, is_locate_marker.
  rewrite (count_events_none _ _ evs (listing_no_locate label) Hevs).
  rewrite (count_events_none _ _ evs (listing_no_error label) Hevs).
  change (Log Info (get_runner_message label) :: evs)
    with ([Log Info (get_runner_message label)] ++ evs)%list.
  by rewrite timer_ms_app, (listing_timer_ms label evs Hevs).
Qed.

(** The two checks when the counter is within the limit and the runner
    is online. *)
Lemma checks_in_time_online runner st w :
  waitSeconds st <= timeoutMinutes * 60 ->
  is_online runner = true ->
  exists name,
    bind (check_timeout st) (check_online runner) w
    = (Ok (resolve (clearInterval st)), logged [registered_event name] w).
Proof.
  intros Hin Hon. unfold bind, check_timeout.
  destruct (Z.gtb_spec (waitSeconds st) (timeoutMinutes * 60)) as [Hgt|_]; [lia|].
  unfold ret, check_online. destruct runner as [r|]; [|done].
  simpl in Hon. rewrite Hon. exists (Runner.name r).
  unfold core_info, bind. by rewrite emit_logged.
Qed.

(** The two checks when the counter is over the limit, whatever the
    locator returned. *)
Lemma checks_over_limit runner s w :
  s > timeoutMinutes * 60 ->
  exists st' e,
    bind (check_timeout (pending s)) (check_online runner) w
    = (Ok st', logged [registration_error_event; e] w) /\
    promise st' = Rejected timeout_message /\
    interval st' = false /\
    (e = checking_event \/ exists name, e = registered_event name).
Proof.
  intros Hover. unfold bind, check_timeout. cbn [waitSeconds pending].
  destruct (Z.gtb_spec s (timeoutMinutes * 60)) as [_|Hle]; [|lia].
  unfold core_error, bind. rewrite emit_logged. unfold ret, check_online.
  destruct runner as [r|]; [destruct (String.eqb (Runner.status r) "online")|];
    unfold core_info, bind; rewrite emit_logged, logged_logged;
    eexists _, _; (split; [reflexivity|]); (split; [done|]); (split; [done|]);
    eauto.
Qed.

Lemma tail_counts label e :
  e = checking_event \/ (exists name, e = registered_event name) ->
  count_events (is_locate label) [registration_error_event; e] = 0%nat /\
  count_events is_error_log [registration_error_event; e] = 1%nat /\
  timer_ms [registration_error_event; e] = 0.
Proof. by intros [-> | [name ->]]. Qed.

Section Schedule.
Variables (env : Env) (fuel : nat) (label : string).
Variables (c0 : nat) (sched : nat -> bool).
Hypothesis Hsched :
  forall w0, exists runner w1,
    getRunner env fuel label w0 = (Ok runner, w1) /\
    is_online runner = sched (count_events (is_locate label) (trace w0) - c0).

(** One period with the runner not yet online and the counter within
    the limit. *)
Lemma period_offline i n w0 :
  count_events (is_locate label) (trace w0) = (c0 + i)%nat ->
  sched i = false ->
  (i <= 30)%nat ->
  exists evs,
    run_interval env (S n) fuel label (pending (10 * Z.of_nat i)) w0
    = run_interval env n fuel label (pending (10 * Z.of_nat (S i))) (logged evs w0) /\
    count_events (is_locate label) evs = 1%nat /\
    count_events is_error_log evs = 0%nat /\
    timer_ms evs = 10000.
Proof.
  intros Hcount Hoff Hi. rewrite run_interval_S, tick_eq.
  destruct (Hsched (logged [Timer (retryIntervalSeconds * 1000)] w0))
    as (runner & w1 & Hlocate & Honline).
  cbn [logged trace] in Honline.
  rewrite count_events_app, Hcount in Honline.
  replace (c0 + i + count_events (is_locate label)
                     [Timer (retryIntervalSeconds * 1000)] - c0)%nat
    with i in Honline by (cbn; lia).
  rewrite Hoff in Honline. rewrite Hlocate.
  apply getRunner_counts in Hlocate as (evs & -> & Hloc & Herr & Hms).
  rewrite checks_in_time; [|unfold timeoutMinutes; cbn [waitSeconds pending]; lia|done].
  change (add_waitSeconds retryIntervalSeconds (pending (10 * Z.of_nat i)))
    with (pending (10 * Z.of_nat i + retryIntervalSeconds)).
  cbn [interval pending].
  rewrite !logged_logged.
  replace (10 * Z.of_nat i + retryIntervalSeconds) with (10 * Z.of_nat (S i))
    by (unfold retryIntervalSeconds; lia).
  eexists; split; [reflexivity|].
  rewrite !count_events_app, !timer_ms_app, Hloc, Herr, Hms. by cbn.
Qed.

(** [d] periods without the runner, then one that finds it online. *)
Lemma run_interval_resolves d :
  forall i n w0,
    count_events (is_locate label) (trace w0) = (c0 + i)%nat ->
    (forall j, (i <= j < i + d)%nat -> sched j = false) ->
    sched (i + d) = true ->
    (i + d <= 30)%nat ->
    (d < n)%nat ->
    exists st' evs,
      run_interval env n fuel label (pending (10 * Z.of_nat i)) w0
      = (Ok st', logged evs w0) /\
      promise st' = Resolved /\
      count_events (is_locate label) evs = S d /\
      count_events is_error_log evs = 0%nat /\
      timer_ms evs = 10000 * Z.of_nat (S d).
Proof.
  induction d as [|d IH]; intros i n w0 Hcount Hoff Hon Hi Hn;
    (destruct n as [|n]; [lia|]).
  - rewrite Nat.add_0_r in Hon. rewrite run_interval_S, tick_eq.
    destruct (Hsched (logged [Timer (retryIntervalSeconds * 1000)] w0))
      as (runner & w1 & Hlocate & Honline).
    cbn [logged trace] in Honline.
    rewrite count_events_app, Hcount in Honline.
    replace (c0 + i + count_events (is_locate label)
                       [Timer (retryIntervalSeconds * 1000)] - c0)%nat
      with i in Honline by (cbn; lia).
    rewrite Hon in Honline. rewrite Hlocate.
    apply getRunner_counts in Hlocate as (evs & -> & Hloc & Herr & Hms).
    destruct (checks_in_time_online runner (pending (10 * Z.of_nat i))
                (logged evs (logged [Timer (retryIntervalSeconds * 1000)] w0)))
      as (name & ->); [unfold timeoutMinutes; cbn [waitSeconds pending]; lia | done |].
    cbn [interval pending resolve clearInterval promise waitSeconds].
    rewrite !logged_logged. eexists _, _; split; [reflexivity|].
    split; [done|].
    rewrite !count_events_app, !timer_ms_app, Hloc, Herr, Hms. by cbn.
  - destruct (period_offline i n w0 Hcount) as (evs & -> & Hloc & Herr & Hms).
    { apply Hoff. lia. }
    { lia. }
    destruct (IH (S i) n (logged evs w0)) as (st' & evs' & -> & Hres & Hloc' & Herr' & Hms').
    { cbn [logged trace]. rewrite count_events_app, Hcount, Hloc. lia. }
    { intros j Hj. apply Hoff. lia. }
    { by replace (S i + d)%nat with (i + S d)%nat by lia. }
    { lia. }
    { lia. }
    rewrite logged_logged. eexists _, _; split; [reflexivity|].
    split; [done|].
    rewrite !count_events_app, !timer_ms_app, Hloc, Herr, Hms, Hloc', Herr', Hms'.
    repeat split; lia.
Qed.

(** [d] periods without the runner, the last of them the 31st of the
    wait, then the period that finds the counter over the limit. *)
Lemma run_interval_rejects d :
  forall i n w0,
    count_events (is_locate label) (trace w0) = (c0 + i)%nat ->
    (forall j, (i <= j < i + d)%nat -> sched j = false) ->
    (i + d = 31)%nat ->
    (d < n)%nat ->
    exists st' evs,
      run_interval env n fuel label (pending (10 * Z.of_nat i)) w0
      = (Ok st', logged evs w0) /\
      promise st' = Rejected timeout_message /\
      count_events (is_locate label) evs = S d /\
      count_events is_error_log evs = 1%nat /\
      timer_ms evs = 10000 * Z.of_nat (S d).
Proof.
  induction d as [|d IH]; intros i n w0 Hcount Hoff Hi Hn;
    (destruct n as [|n]; [lia|]).
  - rewrite run_interval_S, tick_eq.
    destruct (Hsched (logged [Timer (retryIntervalSeconds * 1000)] w0))
      as (runner & w1 & Hlocate & _).
    rewrite Hlocate.
    apply getRunner_counts in Hlocate as (evs & -> & Hloc & Herr & Hms).
    destruct (checks_over_limit runner (10 * Z.of_nat i)
                (logged evs (logged [Timer (retryIntervalSeconds * 1000)] w0)))
      as (st' & e & -> & Hrej & Hint & He); [unfold timeoutMinutes; lia|].
    rewrite Hint, !logged_logged.
    destruct (tail_counts label e He) as (Hloc' & Herr' & Hms').
    eexists _, _; split; [reflexivity|]. split; [done|].
    rewrite !count_events_app, !timer_ms_app, Hloc, Herr, Hms, Hloc', Herr', Hms'.
    by cbn.
  - destruct (period_offline i n w0 Hcount) as (evs & -> & Hloc & Herr & Hms).
    { apply Hoff. lia. }
    { lia. }
    destruct (IH (S i) n (logged evs w0)) as (st' & evs' & -> & Hres & Hloc' & Herr' & Hms').
    { cbn [logged trace]. rewrite count_events_app, Hcount, Hloc. lia. }
    { intros j Hj. apply Hoff. lia. }
    { lia. }
    { lia. }
    rewrite logged_logged. eexists _, _; split; [reflexivity|].
    split; [done|].
    rewrite !count_events_app, !timer_ms_app, Hloc, Herr, Hms, Hloc', Herr', Hms'.
    repeat split; lia.
Qed.

End Schedule.

Lemma quiet_period_counts label :
  count_events (is_locate label) quiet_period_events = 0%nat /\
  count_events is_error_log quiet_period_events = 0%nat /\
  timer_ms quiet_period_events = 30000.
Proof. done. Qed.

(** X6. The waiter resolves at the first poll that finds the runner
    online, provided that is one of the first 31. Let [sched j] tell
    whether the locator call made after [j] earlier ones returns an online
    runner: when [k <= 30] is the first index with [sched k], the wait
    returns normally after exactly [k + 1] locator calls, without any
    error line, and the timers it waited for add up to
    [30 + 10 * (k + 1)] seconds. *)
Theorem wait_resolves_at_first_online_poll env fuel label w sched k n :
  (forall w0, exists runner w1,
      getRunner env fuel label w0 = (Ok runner, w1) /\
      is_online runner
      = sched (count_events (is_locate label) (trace w0)
               - count_events (is_locate label) (trace w))%nat) ->
  (forall j, (j < k)%nat -> sched j = false) ->
  sched k = true ->
  (k <= 30)%nat ->
  (k < n)%nat ->
  exists evs,
    waitForRunnerRegistered env n fuel label w = (Ok tt, logged evs w) /\
    count_events (is_locate label) evs = S k /\
    count_events is_error_log evs = 0%nat /\
    timer_ms evs = 30000 + 10000 * Z.of_nat (S k).
Proof.
  intros Hsched Hoff Hon Hk Hn. rewrite waitForRunnerRegistered_eq.
  destruct (quiet_period_counts label) as (Hq1 & Hq2 & Hq3).
  destruct (run_interval_resolves env fuel label _ sched Hsched k 0 n
              (logged quiet_period_events w))
    as (st' & evs & Hrun & Hres & Hloc & Herr & Hms).
  { cbn [logged trace]. rewrite count_events_app, Hq1. lia. }
  { intros j Hj. apply Hoff. lia. }
  { done. }
  { lia. }
  { done. }
  change (10 * Z.of_nat 0) with 0 in Hrun. rewrite Hrun.
  unfold await_promise. rewrite Hres. unfold ret. rewrite logged_logged.
  eexists; split; [reflexivity|].
  rewrite !count_events_app, timer_ms_app, Hq1, Hq2, Hq3, Hloc, Herr, Hms.
  by repeat split.
Qed.

(** X7. Assume that the runs of the timer callback follow one another
    (every locator call returns, and does so before the next 10 s period
    elapses). When none of the first 31 polls finds the runner online, the
    wait is rejected with the timeout message after exactly 32 locator
    calls, whatever the 32nd call returns; the registration error is logged
    once and the timers waited for add up to 350 seconds, not 300. *)
Theorem wait_times_out_after_350_seconds env fuel label w sched n :
  (forall w0, exists runner w1,
      getRunner env fuel label w0 = (Ok runner, w1) /\
      is_online runner
      = sched (count_events (is_locate label) (trace w0)
               - count_events (is_locate label) (trace w))%nat) ->
  (forall j, (j <= 30)%nat -> sched j = false) ->
  (32 <= n)%nat ->
  exists evs,
    waitForRunnerRegistered env n fuel label w
    = (Throw (Reason timeout_message), logged evs w) /\
    count_events (is_locate label) evs = 32%nat /\
    count_events is_error_log evs = 1%nat /\
    timer_ms evs = 350000.
Proof.
  intros Hsched Hoff Hn. rewrite waitForRunnerRegistered_eq.
  destruct (quiet_period_counts label) as (Hq1 & Hq2 & Hq3).
  destruct (run_interval_rejects env fuel label _ sched Hsched 31 0 n
              (logged quiet_period_events w))
    as (st' & evs & Hrun & Hrej & Hloc & Herr & Hms).
  { cbn [logged trace]. rewrite count_events_app, Hq1. lia. }
  { intros j Hj. apply Hoff. lia. }
  { done. }
  { lia. }
  change (10 * Z.of_nat 0) with 0 in Hrun. rewrite Hrun.
  unfold await_promise. rewrite Hrej. unfold throw. rewrite logged_logged.
  eexists; split; [reflexivity|].
  rewrite !count_events_app, timer_ms_app, Hq1, Hq2, Hq3, Hloc, Herr, Hms.
  by repeat split.
Qed.

(** The locator against the remote whose runner comes online at a given
    call. *)
Lemma getRunner_online_from first fuel w0 :
  exists w1,
    getRunner (mock_env (online_from first)) (S fuel) "x" w0
    = (Ok (Some (Runner.mk 7 "late"
                   (if (first <=? count_events (is_locate "x") (trace w0) + 1)%nat
                    then "online" else "offline")
                   [Label.mk "x"])), w1).
Proof.
  rewrite getRunner_eq, getRunner_loop_S.
  cbn [mock_env getOctokit input githubToken online_from logged trace].
  rewrite !count_events_app.
  change (count_events (is_locate "x") [Log Info (get_runner_message "x")]) with 1%nat.
  change (count_events (is_locate "x") [Log Info (sending_message 1)]) with 0%nat.
  rewrite Nat.add_0_r.
  destruct (first <=? _)%nat; by eexists.
Qed.

Lemma online_from_schedule first w0 :
  exists runner w1,
    getRunner (mock_env (online_from first)) 1 "x" w0 = (Ok runner, w1) /\
    is_online runner
    = (fun j => (first <=? j + 1)%nat)
        (count_events (is_locate "x") (trace w0)
         - count_events (is_locate "x") (trace world0))%nat.
Proof.
  destruct (getRunner_online_from first 0 w0) as (w1 & Hlocate).
  eexists _, w1. split; [exact Hlocate|].
  cbn [world0 trace]. change (count_events (is_locate "x") []) with 0%nat.
  rewrite Nat.sub_0_r. by destruct (first <=? _)%nat.
Qed.

Lemma wait_resolves_at_third_poll :
  exists evs,
    waitForRunnerRegistered (mock_env (online_from 3)) 5 1 "x" world0
    = (Ok tt, logged evs world0) /\
    count_events (is_locate "x") evs = 3%nat /\
    timer_ms evs = 60000.
Proof.
  destruct (wait_resolves_at_first_online_poll (mock_env (online_from 3)) 1 "x"
              world0 (fun j => (3 <=? j + 1)%nat) 2 5)
    as (evs & Hrun & Hloc & _ & Hms).
  - apply online_from_schedule.
  - intros j Hj. apply Nat.leb_gt. lia.
  - reflexivity.
  - lia.
  - lia.
  - exists evs. split; [exact Hrun|]. split; [exact Hloc | exact Hms].
Defined.

Lemma wait_for_late_runner_takes_350_seconds :
  exists evs,
    waitForRunnerRegistered (mock_env (online_from 32)) 32 1 "x" world0
    = (Throw (Reason timeout_message), logged evs world0) /\
    timer_ms evs = 350000.
Proof.
  destruct (wait_times_out_after_350_seconds (mock_env (online_from 32)) 1 "x"
              world0 (fun j => (32 <=? j + 1)%nat) 32)
    as (evs & Hrun & _ & _ & Hms).
  - apply online_from_schedule.
  - intros j Hj. apply Nat.leb_gt. lia.
  - lia.
  - exists evs. split; [exact Hrun | exact Hms].
Defined.

(** X8. Listing failures are invisible to the waiter. Assume that the
    runs of the timer callback follow one another (each refusal arrives
    before the next 10 s period elapses): when the remote refuses every
    listing request, the wait ends after 32 locator calls with the timeout
    message, a plain string, and not with the error of a request; exactly
    one error line is logged. *)
Theorem wait_turns_listing_failures_into_timeout env err fuel label w n :
  (forall tr params,
      getOctokit env (githubToken (input env)) tr (GET_runners PAGE_SIZE 1) params
      = inl err) ->
  (1 <= fuel)%nat ->
  (32 <= n)%nat ->
  exists evs,
    waitForRunnerRegistered env n fuel label w
    = (Throw (Reason timeout_message), logged evs w) /\
    (forall code message, Reason timeout_message <> RequestError code message) /\
    count_events (is_locate label) evs = 32%nat /\
    count_events is_error_log evs = 1%nat.
Proof.
  intros Hfail Hfuel Hn.
  assert (Hsched : forall w0, exists runner w1,
    getRunner env fuel label w0 = (Ok runner, w1) /\
    is_online runner
    = (fun _ => false)
        (count_events (is_locate label) (trace w0)
         - count_events (is_locate label) (trace w))%nat).
  { intros w0. destruct fuel as [|fuel]; [lia|].
    rewrite getRunner_eq, getRunner_loop_S, Hfail. by eexists _, _. }
  rewrite waitForRunnerRegistered_eq.
  destruct (quiet_period_counts label) as (Hq1 & Hq2 & Hq3).
  destruct (run_interval_rejects env fuel label _ _ Hsched 31 0 n
              (logged quiet_period_events w))
    as (st' & evs & Hrun & Hrej & Hloc & Herr & Hms).
  { cbn [logged trace]. rewrite count_events_app, Hq1. lia. }
  { done. }
  { done. }
  { lia. }
  change (10 * Z.of_nat 0) with 0 in Hrun. rewrite Hrun.
  unfold await_promise. rewrite Hrej. unfold throw. rewrite logged_logged.
  eexists; split; [reflexivity|]. split; [done|].
  rewrite !count_events_app, Hq1, Hq2, Hloc, Herr. by split.
Qed.

Lemma wait_unauthorized_scenario :
  exists evs,
    waitForRunnerRegistered env_unauthorized 32 1 "x" world0
    = (Throw (Reason timeout_message), logged evs world0) /\
    count_events (is_locate "x") evs = 32%nat.
Proof.
  destruct (wait_turns_listing_failures_into_timeout env_unauthorized
              (RequestError 401 "Bad credentials") 1 "x" world0 32)
    as (evs & Hrun & _ & Hloc & _).
  - intros tr params. reflexivity.
  - lia.
  - lia.
  - exists evs. split; [exact Hrun | exact Hloc].
Defined.

(** ** Every way a wait can end *)

(** From a waiting state the timer loop ends resolved without an error
    line, or rejected with the timeout message and one error line, or it
    is still going when its periods are used up. *)
Lemma run_interval_outcomes env fuel label n :
  forall s w,
    exists r evs,
      run_interval env n fuel label (pending s) w = (r, logged evs w) /\
      ((r = OutOfFuel /\ count_events is_error_log evs = 0%nat) \/
       (exists st', r = Ok st' /\ promise st' = Resolved /\
                    count_events is_error_log evs = 0%nat) \/
       (exists st', r = Ok st' /\ promise st' = Rejected timeout_message /\
                    count_events is_error_log evs = 1%nat)).
Proof.
  induction n as [|n IH]; intros s w.
  - exists OutOfFuel, []. rewrite logged_nil. split; [reflexivity|]. by left.
  - rewrite run_interval_S, tick_eq.
    destruct (getRunner env fuel label (logged [Timer (retryIntervalSeconds * 1000)] w))
      as [[runner|e|] w1] eqn:Hlocate.
    + apply getRunner_counts in Hlocate as (evs & -> & _ & Herr & _).
      destruct (Z.gtb_spec s (timeoutMinutes * 60)) as [Hgt|Hle].
      * destruct (checks_over_limit runner s
                    (logged evs (logged [Timer (retryIntervalSeconds * 1000)] w)))
          as (st' & e & -> & Hrej & Hint & He); [lia|].
        rewrite Hint, !logged_logged.
        destruct (tail_counts label e He) as (_ & Herr' & _).
        eexists _, _; split; [reflexivity|]. right. right.
        exists st'. split; [done|]. split; [done|].
        rewrite !count_events_app, Herr, Herr'. by cbn.
      * destruct (is_online runner) eqn:Honline.
        -- destruct (checks_in_time_online runner (pending s)
                       (logged evs (logged [Timer (retryIntervalSeconds * 1000)] w)))
             as (name & ->); [done | done |].
           cbn [interval pending resolve clearInterval promise waitSeconds].
           rewrite !logged_logged.
           eexists _, _; split; [reflexivity|]. right. left.
           eexists; split; [reflexivity|]. split; [done|].
           rewrite !count_events_app, Herr. by cbn.
        -- rewrite checks_in_time; [|done|done].
           change (add_waitSeconds retryIntervalSeconds (pending s))
             with (pending (s + retryIntervalSeconds)).
           cbn [interval pending].
           destruct (IH (s + retryIntervalSeconds)
                       (logged [checking_event]
                          (logged evs (logged [Timer (retryIntervalSeconds * 1000)] w))))
             as (r & evs' & -> & Hcases).
           rewrite !logged_logged.
           eexists _, _; split; [reflexivity|].
           rewrite !count_events_app, Herr.
           change (count_events is_error_log [Timer (retryIntervalSeconds * 1000)])
             with 0%nat.
           change (count_events is_error_log [checking_event]) with 0%nat.
           destruct Hcases as [[-> ->] | [(st' & -> & Hres & ->) | (st' & -> & Hrej & ->)]].
           ++ by left.
           ++ right. left. by exists st'.
           ++ right. right. by exists st'.
    + apply getRunner_frame in Hlocate as [Hno _]. by destruct (Hno e).
    + apply getRunner_counts in Hlocate as (evs & -> & _ & Herr & _).
      rewrite logged_logged. eexists _, _; split; [reflexivity|]. left.
      split; [done|]. rewrite count_events_app, Herr. by cbn.
Qed.

(** X9. Assume that the runs of the timer callback follow one another
    (every locator call that returns does so before the next 10 s period
    elapses). Then, whatever the remote answers, a wait has only two ways
    to end: it returns normally, or it throws the timeout message. It never
    throws the error of a request. The registration error line is logged
    exactly when the wait is rejected (once), and the shared context is the
    same afterwards in every case. *)
Theorem wait_outcomes env n fuel label w :
  exists r evs,
    waitForRunnerRegistered env n fuel label w = (r, logged evs w) /\
    ((r = Ok tt /\ count_events is_error_log evs = 0%nat) \/
     (r = Throw (Reason timeout_message) /\ count_events is_error_log evs = 1%nat) \/
     (r = OutOfFuel /\ count_events is_error_log evs = 0%nat)).
Proof.
  rewrite waitForRunnerRegistered_eq.
  destruct (run_interval_outcomes env fuel label n 0 (logged quiet_period_events w))
    as (r & evs & -> & Hcases).
  destruct (quiet_period_counts label) as (_ & Hq & _).
  destruct Hcases as [[-> Herr] | [(st' & -> & Hres & Herr) | (st' & -> & Hrej & Herr)]].
  - rewrite logged_logged. eexists _, _; split; [reflexivity|].
    right. right. split; [done|]. by rewrite count_events_app, Hq, Herr.
  - unfold await_promise. rewrite Hres. unfold ret. rewrite logged_logged.
    eexists _, _; split; [reflexivity|].
    left. split; [done|]. by rewrite count_events_app, Hq, Herr.
  - unfold await_promise. rewrite Hrej. unfold throw. rewrite logged_logged.
    eexists _, _; split; [reflexivity|].
    right. left. split; [done|]. by rewrite count_events_app, Hq, Herr.
Qed.

(** The timer loop only adds to the trace, from any closure state. *)
Lemma run_interval_extends env fuel label n :
  forall st w, exists r evs,
    run_interval env n fuel label st w = (r, logged evs w).
Proof.
  induction n as [|n IH]; intros st w.
  - exists OutOfFuel, []. by rewrite logged_nil.
  - rewrite run_interval_S, tick_eq.
    destruct (getRunner env fuel label (logged [Timer (retryIntervalSeconds * 1000)] w))
      as [[runner|e|] w1] eqn:Hlocate;
      apply getRunner_counts in Hlocate as (evs & -> & _).
    + destruct (checks_only_log label runner st
                  (logged evs (logged [Timer (retryIntervalSeconds * 1000)] w)))
        as (st' & evs2 & -> & _).
      destruct (interval st').
      * destruct (IH st' (logged evs2 (logged evs
                   (logged [Timer (retryIntervalSeconds * 1000)] w))))
          as (r & evs3 & ->).
        rewrite !logged_logged. by eexists _, _.
      * rewrite !logged_logged. by eexists _, _.
    + rewrite logged_logged. by eexists _, _.
    + rewrite logged_logged. by eexists _, _.
Qed.

(** X10. Nothing is asked of the remote during the quiet period: a wait
    first logs, lets the 30 s quiet period pass, logs again and lets one
    10 s timer period pass; only then comes the first call of the locator.
    No request precedes it and 40 s of timers do. *)
Theorem first_poll_follows_quiet_period env n fuel label w :
  exists r evs,
    waitForRunnerRegistered env (S n) fuel label w
    = (r, logged (quiet_period_events ++ period_event
                    :: Log Info (get_runner_message label) :: evs) w) /\
    requests (quiet_period_events ++ [period_event]) = [] /\
    count_events (is_locate label) (quiet_period_events ++ [period_event]) = 0%nat /\
    timer_ms (quiet_period_events ++ [period_event]) = 40000.
Proof.
  assert (Hrun : exists r evs,
    run_interval env (S n) fuel label (pending 0) (logged quiet_period_events w)
    = (r, logged (quiet_period_events ++ period_event
                    :: Log Info (get_runner_message label) :: evs) w)).
  { rewrite run_interval_S, tick_eq. fold period_event.
    destruct (getRunner env fuel label
                (logged [period_event] (logged quiet_period_events w)))
      as [[runner|e|] w1] eqn:Hlocate;
      apply getRunner_frame in Hlocate as (_ & evs & -> & _).
    - destruct (checks_only_log label runner (pending 0)
                  (logged (Log Info (get_runner_message label) :: evs)
                     (logged [period_event] (logged quiet_period_events w))))
        as (st' & evs2 & -> & _).
      destruct (interval st').
      + destruct (run_interval_extends env fuel label n st'
                    (logged evs2
                       (logged (Log Info (get_runner_message label) :: evs)
                          (logged [period_event] (logged quiet_period_events w)))))
          as (r & evs3 & ->).
        rewrite !logged_logged. eexists r, ((evs ++ evs2) ++ evs3)%list.
        unfold logged. cbn [trace githubContext]. by rewrite <- ?app_assoc.
      + rewrite !logged_logged. eexists _, (evs ++ evs2)%list.
        unfold logged. cbn [trace githubContext]. by rewrite <- ?app_assoc.
    - rewrite !logged_logged. eexists _, evs.
      unfold logged. cbn [trace githubContext]. by rewrite <- ?app_assoc.
    - rewrite !logged_logged. eexists _, evs.
      unfold logged. cbn [trace githubContext]. by rewrite <- ?app_assoc. }
  destruct Hrun as (r & evs & Hrun).
  rewrite waitForRunnerRegistered_eq, Hrun.
  destruct r as [st|e|].
  - unfold await_promise.
    destruct (promise st); unfold ret, throw, out_of_fuel;
      eexists _, evs; (split; [reflexivity|]); by repeat split.
  - eexists _, evs. split; [reflexivity|]. by repeat split.
  - eexists _, evs. split; [reflexivity|]. by repeat split.
Qed.

(** ** The shared context under [removeRunner], and a lookup across pages *)

(** X11. Whatever its outcome, [removeRunner] changes the shared context
    in one key at most: every key other than [runner_id] keeps its value,
    and when the context did change, the locator had found a runner and
    [runner_id] now holds that runner's id. *)
Theorem removeRunner_changes_only_runner_id env fuel w :
  let w' := snd (removeRunner env fuel w) in
  (forall key, key <> "runner_id" ->
               githubContext w' !! key = githubContext w !! key) /\
  (githubContext w' <> githubContext w ->
   exists runner,
     fst (getRunner env fuel (label (input env)) w) = Ok (Some runner) /\
     githubContext w' !! "runner_id" = Some (VNum (Runner.id runner))).
Proof.
  intros w'. unfold w'.
  destruct (removeRunner_context env fuel w) as [Hsame | (runner & Hfound & Hctx)].
  - rewrite Hsame. split; [done|]. by intros [].
  - rewrite Hctx. split.
    + intros key Hkey. by apply lookup_insert_ne.
    + intros _. exists runner. split; [done|]. apply lookup_insert_eq.
Qed.

(** X12. [getRunner] matches only after the listing is complete: with
    pages [1 .. last-1] full and page [last] short it sends the requests
    for all of the pages [1 .. last], wherever the label occurs, and
    returns the first runner carrying the label among the records of all
    these pages taken in page order. *)
Theorem getRunner_matches_after_complete_listing env pages last fuel label w :
  serves (getOctokit env (githubToken (input env))) pages ->
  (1 <= last <= fuel)%nat ->
  (forall q, (1 <= q < last)%nat -> is_full (pages q)) ->
  is_short (pages last) ->
  exists found w',
    getRunner env fuel label w = (Ok found, w') /\
    found = found_runner label (collect pages 1 last) /\
    first_with_label label (collect pages 1 last) found /\
    requests (trace w')
    = (requests (trace w) ++ page_requests (githubContext w) 1 last)%list.
Proof.
  intros Hserves [Hlast Hfuel] Hfull Hshort.
  destruct last as [|k]; [lia|].
  destruct (getRunner_loop_pages _ pages Hserves k fuel 1 []
              (logged [Log Info (get_runner_message label)] w))
    as (w1 & Hloop & _ & Hreq).
  { lia. }
  { intros q Hq. apply Hfull. lia. }
  { done. }
  rewrite getRunner_eq, Hloop. cbn [app].
  eexists _, _. split; [reflexivity|]. split; [reflexivity|].
  split; [apply found_runner_first|].
  cbn [logged trace githubContext] in *.
  rewrite requests_app, Hreq, requests_app. cbn [requests omap request_of].
  by rewrite !app_nil_r.
Qed.

Lemma getRunner_match_on_first_page_scenario :
  exists w',
    getRunner (mock_env (mock_octokit pages_100_100_0 token_abc deleted)) 3 "l5" world0
    = (Ok (Some (runner_n "offline" 5)), w') /\
    map fst (requests (trace w'))
    = [GET_runners 100 1; GET_runners 100 2; GET_runners 100 3].
Proof.
  destruct (getRunner_matches_after_complete_listing
              (mock_env (mock_octokit pages_100_100_0 token_abc deleted))
              pages_100_100_0 3 3 "l5" world0)
    as (found & w' & Hrun & Hfound & _ & Hreq).
  - intros tr page params. reflexivity.
  - lia.
  - intros q Hq. assert (q = 1 \/ q = 2)%nat as [-> | ->] by lia; vm_compute; lia.
  - vm_compute. lia.
  - exists w'. split.
    + rewrite Hrun, Hfound. vm_compute. reflexivity.
    + rewrite Hreq. reflexivity.
Defined.

(** ** What a wait sends *)

Lemma listing_requests_get label evs :
  Forall (fun e => is_listing label e = true) evs ->
  Forall is_listing_request (requests evs).
Proof.
  induction 1 as [|e evs He _ IH]; [constructor|].
  destruct e as [[] m|[per_page page| |] params|ms]; try done.
  constructor; [|done]. by exists per_page, page.
Qed.

Lemma getRunner_requests env fuel label w r w1 :
  getRunner env fuel label w = (r, w1) ->
  exists evs, w1 = logged evs w /\ Forall is_listing_request (requests evs).
Proof.
  intros Hrun. apply getRunner_frame in Hrun as (_ & evs & -> & Hevs).
  eexists; split; [reflexivity|].
  by apply (listing_requests_get label) in Hevs.
Qed.

Lemma run_interval_requests env fuel label n :
  forall st w, exists r evs,
    run_interval env n fuel label st w = (r, logged evs w) /\
    Forall is_listing_request (requests evs).
Proof.
  induction n as [|n IH]; intros st w.
  - exists OutOfFuel, []. rewrite logged_nil. split; [done|]. constructor.
  - rewrite run_interval_S, tick_eq.
    destruct (getRunner env fuel label (logged [Timer (retryIntervalSeconds * 1000)] w))
      as [[runner|e|] w1] eqn:Hlocate;
      apply getRunner_requests in Hlocate as (evs & -> & Hevs).
    + destruct (checks_only_log label runner st
                  (logged evs (logged [Timer (retryIntervalSeconds * 1000)] w)))
        as (st' & evs2 & -> & Hreq2 & _).
      destruct (interval st').
      * destruct (IH st' (logged evs2
                   (logged evs (logged [Timer (retryIntervalSeconds * 1000)] w))))
          as (r & evs3 & -> & Hevs3).
        rewrite !logged_logged. eexists _, _; split; [reflexivity|].
        rewrite !requests_app, Hreq2.
        repeat (apply Forall_app; split); try done; constructor.
      * rewrite !logged_logged. eexists _, _; split; [reflexivity|].
        rewrite !requests_app, Hreq2.
        repeat (apply Forall_app; split); try done; constructor.
    + rewrite !logged_logged. eexists _, _; split; [reflexivity|].
      rewrite !requests_app.
      repeat (apply Forall_app; split); try done; constructor.
    + rewrite !logged_logged. eexists _, _; split; [reflexivity|].
      rewrite !requests_app.
      repeat (apply Forall_app; split); try done; constructor.
Qed.

(** X13. Waiting is read-only towards the remote: for every remote and
    every outcome, each request a wait sends is a listing request; it
    sends no DELETE and no POST request. *)
Theorem wait_sends_only_listing_requests env n fuel label w :
  exists r evs,
    waitForRunnerRegistered env n fuel label w = (r, logged evs w) /\
    Forall is_listing_request (requests evs) /\
    count_events is_delete evs = 0%nat /\
    count_events is_post evs = 0%nat.
Proof.
  rewrite waitForRunnerRegistered_eq.
  destruct (run_interval_requests env fuel label n (pending 0)
              (logged quiet_period_events w)) as (r & evs & -> & Hevs).
  assert (Hall : Forall is_listing_request (requests (quiet_period_events ++ evs))).
  { by rewrite requests_app. }
  assert (Hcounts : forall tr, Forall is_listing_request (requests tr) ->
            count_events is_delete tr = 0%nat /\ count_events is_post tr = 0%nat).
  { clear. induction tr as [|e tr IH]; [done|].
    destruct e as [lvl m|route params|ms]; cbn [requests omap request_of];
      rewrite !count_events_cons.
    - intros Hrest. by apply IH in Hrest as [-> ->].
    - intros Hrest. apply Forall_cons in Hrest as [(per_page & page & Hroute) Hrest].
      simpl in Hroute. subst route. by apply IH in Hrest as [-> ->].
    - intros Hrest. by apply IH in Hrest as [-> ->]. }
  destruct (Hcounts _ Hall) as [Hdel Hpost].
  destruct r as [st|e|].
  - unfold await_promise.
    destruct (promise st); unfold ret, throw, out_of_fuel; rewrite logged_logged;
      by eexists _, _.
  - rewrite logged_logged. by eexists _, _.
  - rewrite logged_logged. by eexists _, _.
Qed.
